(** * building_map_server: the snapshot builder and the fetch handler

    A shallow embedding of
    [building_map_tools/building_map_server/building_map_server.py]:
    the translation of a building model into a [BuildingMap] message
    ([building_map_msg], [level_msg], [lift_msg]) and the service callback
    [get_building_map].

    Python exceptions are values of [exn] carried by the [result] monad;
    the file system is a function from paths to the outcome of
    [open(path, 'rb').read()]; Python floats are IEEE doubles ([float]).
    Console output ([print]) is not part of the model. *)

From Stdlib Require Import ZArith String Ascii List.
From Stdlib Require Import Strings.Byte.
From Stdlib Require Import Floats.PrimFloat.
From Stdlib Require SpecFloat FloatOps.
From stdpp Require Import base numbers option list strings gmap.

Local Open Scope string_scope.
Local Open Scope Z_scope.

(** ** Python run time: exceptions, values, sequences, strings *)

Inductive exn : Type :=
  | KeyError (key : string)
  | IndexError
  | ValueError
  | OverflowError
  | OSError (path : string).

Inductive result (A : Type) : Type :=
  | Ok (a : A)
  | Raise (e : exn).
Arguments Ok {A} a.
Arguments Raise {A} e.

Definition bind {A B} (m : result A) (k : A -> result B) : result B :=
  match m with
  | Ok a => k a
  | Raise e => Raise e
  end.

Notation "'let*' x ':=' m 'in' k" := (bind m (fun x => k))
  (at level 10, x name, m at level 100, k at level 200).

Definition raises {A} (m : result A) : Prop := exists e, m = Raise e.

(** The [for x in xs: acc.append(f(x))] loop, aborted by the first
    exception. *)
Fixpoint for_each {A B} (f : A -> result B) (xs : list A) : result (list B) :=
  match xs with
  | [] => Ok []
  | x :: xs' =>
      let* y := f x in
      let* ys := for_each f xs' in
      Ok (y :: ys)
  end.

(** The values a [ParamValue.value] can hold. *)
Inductive PyValue : Type :=
  | VStr (s : string)
  | VInt (z : Z)
  | VFloat (f : float)
  | VBool (b : bool).

(** [v == 'literal']: only a string equals a string. *)
Definition py_eq_str (v : PyValue) (lit : string) : bool :=
  match v with
  | VStr s => String.eqb s lit
  | _ => false
  end.

(** [xs[i]] on a list: negative indices count from the end, anything
    outside [-len, len) raises [IndexError]. *)
Definition py_getitem {A} (xs : list A) (i : Z) : result A :=
  let n := Z.of_nat (length xs) in
  let j := if i <? 0 then i + n else i in
  if (j <? 0) || (n <=? j) then Raise IndexError
  else match xs !! Z.to_nat j with
       | Some x => Ok x
       | None => Raise IndexError
       end.

(** [d[k]] on a dict. *)
Definition dict_getitem {V} (d : gmap string V) (k : string) : result V :=
  match d !! k with
  | Some v => Ok v
  | None => Raise (KeyError k)
  end.

(** [s.split(sep)] for a one-character separator. *)
Fixpoint split (sep : ascii) (s : string) : list string :=
  match s with
  | EmptyString => [EmptyString]
  | String c s' =>
      if Ascii.eqb c sep then EmptyString :: split sep s'
      else match split sep s' with
           | hd :: tl => String c hd :: tl
           | [] => [String c EmptyString]
           end
  end.

Definition startswith_char (s : string) (c : ascii) : bool :=
  match s with
  | String c' _ => Ascii.eqb c' c
  | EmptyString => false
  end.

Fixpoint endswith_char (s : string) (c : ascii) : bool :=
  match s with
  | EmptyString => false
  | String c' EmptyString => Ascii.eqb c' c
  | String _ s' => endswith_char s' c
  end.

(** [os.path.join(a, b)] (posixpath). *)
Definition path_join (a b : string) : string :=
  if startswith_char b "/" then b
  else if (String.eqb a "") || endswith_char a "/" then a +:+ b
  else a +:+ "/" +:+ b.

(** Truth value of [level.drawing_name]: [None] and [''] are false. *)
Definition truthy_name (o : option string) : option string :=
  match o with
  | Some (String c s) => Some (String c s)
  | _ => None
  end.

(** [str(i)] for an int. *)
Fixpoint digits (fuel : nat) (n : N) (acc : string) : string :=
  match fuel with
  | O => acc
  | S fuel' =>
      let d := ascii_of_N (48 + N.modulo n 10) in
      let q := N.div n 10 in
      if N.eqb q 0 then String d acc else digits fuel' q (String d acc)
  end.

Definition str (i : Z) : string :=
  let body := digits (S (N.to_nat (N.log2 (Z.abs_N i)))) (Z.abs_N i) "" in
  if i <? 0 then String "-" body else body.

(** ** The building model ([building_map.building])  *)

Module Model.

(** Modelled from the spec: the class of [level.transform] is not in this
    file; section 3 gives "2-D affine transform: scale, x/y translation,
    yaw", read here through [scale], [translation[0]], [translation[1]]
    and [rotation]. *)
Module Transform.
Record t : Type := mk {
  scale : float;
  translation : float * float;
  rotation : float }.
End Transform.

(** Modelled from the spec: the entries of a named-parameter bag; only
    their [value] attribute is read. *)
Module ParamValue.
Record t : Type := mk { value : PyValue }.
End ParamValue.

(** Modelled from the spec: a vertex of a level, "(x, y, named
    parameters)"; only [x] and [y] are read. *)
Module Vertex.
Record t : Type := mk { x : float; y : float }.
End Vertex.

(** Modelled from the spec: a door, "endpoint indices into the level's
    vertex list, a named-parameter bag". *)
Module Door.
Record t : Type := mk {
  start_idx : Z;
  end_idx : Z;
  params : gmap string ParamValue.t }.
End Door.

(** Modelled from the spec: the value of [level.generate_nav_graph(i,
    always_unidirectional)], section 6: [{vertices: [(x, y, {name})],
    lanes: [(v1_idx, v2_idx, {is_bidirectional})]}]. *)
Module NavGraph.
Record vertex_params : Type := mk_vertex_params { name : string }.
Record lane_params : Type := mk_lane_params { is_bidirectional : bool }.
Record t : Type := mk {
  vertices : list (float * float * vertex_params);
  lanes : list (Z * Z * lane_params) }.
End NavGraph.

(** Modelled from the spec: a level; [generate_nav_graph] is the model's
    method, taken as a field. *)
Module Level.
Record t : Type := mk {
  name : string;
  elevation : float;
  drawing_name : option string;
  transform : Transform.t;
  vertices : list Vertex.t;
  doors : list Door.t;
  generate_nav_graph : Z -> bool -> NavGraph.t }.
End Level.

(** Modelled from the spec: a lift. *)
Module Lift.
Record t : Type := mk {
  name : string;
  level_names : list string;
  x : float;
  y : float;
  yaw : float;
  width : float;
  depth : float }.
End Lift.

(** Modelled from the spec: the building; [levels] and [lifts] are dicts,
    kept as the list of their items in insertion order, which is the order
    [.items()] yields. *)
Module Building.
Record t : Type := mk {
  name : string;
  levels : list (string * Level.t);
  lifts : list (string * Lift.t) }.
End Building.

End Model.

(** ** The messages ([building_map_msgs.msg]) *)

Module Msg.

Module AffineImage.
Record t : Type := mk {
  encoding : string;
  scale : float;
  x_offset : float;
  y_offset : float;
  yaw : float;
  data : list byte }.
End AffineImage.

Module Door.
(** Modelled from the spec: the [DOOR_TYPE_*] constants the source
    names, as the closed enumeration of section 3. *)
Inductive door_type_t : Type :=
  | DOOR_TYPE_UNDEFINED
  | DOOR_TYPE_SINGLE_SLIDING
  | DOOR_TYPE_DOUBLE_SLIDING
  | DOOR_TYPE_SINGLE_SWING
  | DOOR_TYPE_DOUBLE_SWING.
Record t : Type := mk {
  door_name : PyValue;
  v1_x : float;
  v1_y : float;
  v2_x : float;
  v2_y : float;
  motion_range : float;
  motion_direction : PyValue;
  door_type : door_type_t }.
End Door.

Module GraphNode.
Record t : Type := mk { x : float; y : float; name : string }.
End GraphNode.

Module GraphEdge.
Inductive edge_type_t : Type :=
  | EDGE_TYPE_BIDIRECTIONAL
  | EDGE_TYPE_UNIDIRECTIONAL.
Record t : Type := mk { v1_idx : Z; v2_idx : Z; edge_type : edge_type_t }.
End GraphEdge.

Module Graph.
Record t : Type := mk {
  name : string;
  vertices : list GraphNode.t;
  edges : list GraphEdge.t }.
End Graph.

Module Level.
Record t : Type := mk {
  name : string;
  elevation : float;
  images : list AffineImage.t;
  doors : list Door.t;
  nav_graphs : list Graph.t }.
End Level.

Module Lift.
Record t : Type := mk {
  name : string;
  levels : list string;
  ref_x : float;
  ref_y : float;
  ref_yaw : float;
  width : float;
  depth : float }.
End Lift.

Module BuildingMap.
Record t : Type := mk {
  name : string;
  levels : list Level.t;
  lifts : list Lift.t }.
End BuildingMap.

End Msg.

(** [range(a, b)] *)
Definition range (a b : Z) : list Z := seqZ a (b - a).

(** ** BuildingMapServer *)

(** The environment of the process: what [open(path, 'rb').read()] gives
    for a path, and the builtin [float] on ints and on strings. *)
Record Env : Type := mkEnv {
  read_file : string -> result (list byte);
  int_to_float : Z -> result float;
  str_to_float : string -> result float }.

Section BuildingMapServer.

Variable env : Env.

(** [float(v)] *)
Definition py_float (v : PyValue) : result float :=
  match v with
  | VFloat f => Ok f
  | VBool b => Ok (if b then 1%float else 0%float)
  | VInt z => int_to_float env z
  | VStr s => str_to_float env s
  end.

(** [lift_msg] *)
Definition lift_msg (lift : Model.Lift.t) : Msg.Lift.t :=
  {| Msg.Lift.name := Model.Lift.name lift;
     Msg.Lift.levels := Model.Lift.level_names lift;
     Msg.Lift.ref_x := Model.Lift.x lift;
     Msg.Lift.ref_y := Model.Lift.y lift;
     Msg.Lift.ref_yaw := Model.Lift.yaw lift;
     Msg.Lift.width := Model.Lift.width lift;
     Msg.Lift.depth := Model.Lift.depth lift |}.

(** [image_filename.split('.')[-1]] *)
Definition image_encoding (image_filename : string) : result string :=
  py_getitem (split "." image_filename) (-1).

(** [level_msg], the [if level.drawing_name:] block. *)
Definition level_images (map_dir : string) (level : Model.Level.t)
  : result (list Msg.AffineImage.t) :=
  match truthy_name (Model.Level.drawing_name level) with
  | None => Ok []
  | Some image_filename =>
      let* encoding := image_encoding image_filename in
      let tr := Model.Level.transform level in
      let image_path := path_join map_dir image_filename in
      let* data := read_file env image_path in
      Ok [ {| Msg.AffineImage.encoding := encoding;
              Msg.AffineImage.scale := Model.Transform.scale tr;
              Msg.AffineImage.x_offset := fst (Model.Transform.translation tr);
              Msg.AffineImage.y_offset := snd (Model.Transform.translation tr);
              Msg.AffineImage.yaw := Model.Transform.rotation tr;
              Msg.AffineImage.data := data |} ]
  end.

(** The [if door_type == ... elif ... else] chain. *)
Definition door_type_of (door_type : PyValue) : Msg.Door.door_type_t :=
  if py_eq_str door_type "sliding" then Msg.Door.DOOR_TYPE_SINGLE_SLIDING
  else if py_eq_str door_type "hinged" then Msg.Door.DOOR_TYPE_SINGLE_SWING
  else if py_eq_str door_type "double_sliding"
       then Msg.Door.DOOR_TYPE_DOUBLE_SLIDING
  else if py_eq_str door_type "double_hinged"
       then Msg.Door.DOOR_TYPE_DOUBLE_SWING
  else Msg.Door.DOOR_TYPE_UNDEFINED.

(** [level_msg], the body of [for door in level.doors:], statement by
    statement. *)
Definition door_msg (level : Model.Level.t) (door : Model.Door.t)
  : result Msg.Door.t :=
  let params := Model.Door.params door in
  let vertices := Model.Level.vertices level in
  let* p_name := dict_getitem params "name" in
  let* v1 := py_getitem vertices (Model.Door.start_idx door) in
  let* v1' := py_getitem vertices (Model.Door.start_idx door) in
  let* v2 := py_getitem vertices (Model.Door.end_idx door) in
  let* v2' := py_getitem vertices (Model.Door.end_idx door) in
  let* p_degrees := dict_getitem params "motion_degrees" in
  let* motion_range := py_float (Model.ParamValue.value p_degrees) in
  let* p_direction := dict_getitem params "motion_direction" in
  let* p_type := dict_getitem params "type" in
  Ok {| Msg.Door.door_name := Model.ParamValue.value p_name;
        Msg.Door.v1_x := Model.Vertex.x v1;
        Msg.Door.v1_y := Model.Vertex.y v1';
        Msg.Door.v2_x := Model.Vertex.x v2;
        Msg.Door.v2_y := Model.Vertex.y v2';
        Msg.Door.motion_range := motion_range;
        Msg.Door.motion_direction := Model.ParamValue.value p_direction;
        Msg.Door.door_type := door_type_of (Model.ParamValue.value p_type) |}.

(** [level_msg], the [if (len(level.doors)):] block. *)
Definition level_doors (level : Model.Level.t) : result (list Msg.Door.t) :=
  if (Z.of_nat (length (Model.Level.doors level)) =? 0) then Ok []
  else for_each (door_msg level) (Model.Level.doors level).

Definition graph_node (v : float * float * Model.NavGraph.vertex_params)
  : Msg.GraphNode.t :=
  {| Msg.GraphNode.x := fst (fst v);
     Msg.GraphNode.y := snd (fst v);
     Msg.GraphNode.name := Model.NavGraph.name (snd v) |}.

Definition graph_edge (l : Z * Z * Model.NavGraph.lane_params)
  : Msg.GraphEdge.t :=
  {| Msg.GraphEdge.v1_idx := fst (fst l);
     Msg.GraphEdge.v2_idx := snd (fst l);
     Msg.GraphEdge.edge_type :=
       if Model.NavGraph.is_bidirectional (snd l)
       then Msg.GraphEdge.EDGE_TYPE_BIDIRECTIONAL
       else Msg.GraphEdge.EDGE_TYPE_UNIDIRECTIONAL |}.

(** [level_msg], the body of [for i in range(0, 9):]: the graphs it
    appends to [msg.nav_graphs], none after [continue]. *)
Definition nav_graph_step (level : Model.Level.t) (i : Z) : list Msg.Graph.t :=
  let g := Model.Level.generate_nav_graph level i false in
  match Model.NavGraph.lanes g with
  | [] => []
  | _ :: _ =>
      [ {| Msg.Graph.name := str i;
           Msg.Graph.vertices := map graph_node (Model.NavGraph.vertices g);
           Msg.Graph.edges := map graph_edge (Model.NavGraph.lanes g) |} ]
  end.

Definition level_nav_graphs (level : Model.Level.t) : list Msg.Graph.t :=
  flat_map (nav_graph_step level) (range 0 9).

(** [level_msg] *)
Definition level_msg (map_dir : string) (level : Model.Level.t)
  : result Msg.Level.t :=
  let* images := level_images map_dir level in
  let* doors := level_doors level in
  Ok {| Msg.Level.name := Model.Level.name level;
        Msg.Level.elevation := Model.Level.elevation level;
        Msg.Level.images := images;
        Msg.Level.doors := doors;
        Msg.Level.nav_graphs := level_nav_graphs level |}.

(** [building_map_msg] *)
Definition building_map_msg (map_dir : string) (building : Model.Building.t)
  : result Msg.BuildingMap.t :=
  let* levels :=
    for_each (fun item => level_msg map_dir (snd item))
             (Model.Building.levels building) in
  let lifts := map (fun item => lift_msg (snd item))
                   (Model.Building.lifts building) in
  Ok {| Msg.BuildingMap.name := Model.Building.name building;
        Msg.BuildingMap.levels := levels;
        Msg.BuildingMap.lifts := lifts |}.

(** The node after [__init__]: the directory of the map, the message
    built once, and what it has logged. *)
Record Server : Type := mkServer {
  map_dir : string;
  map_msg : Msg.BuildingMap.t;
  logged : list string }.

(** [GetBuildingMap.Response]; the request type is left open. *)
Record Response : Type := mkResponse { building_map : Msg.BuildingMap.t }.

(** [get_building_map]: the node and the response after the call. *)
Definition get_building_map {Request : Type} (self : Server)
    (request : Request) (response : Response) : Server * Response :=
  let self' := {| map_dir := map_dir self;
                  map_msg := map_msg self;
                  logged := logged self ++ ["get_building_map()"] |} in
  let response' := {| building_map := map_msg self' |} in
  (self', response').

(** Calls of the service one after the other, each with the request and
    the blank response the middleware hands in. *)
Fixpoint serve {Request : Type} (self : Server)
    (calls : list (Request * Response)) : Server * list Response :=
  match calls with
  | [] => (self, [])
  | (request, response) :: rest =>
      let '(self1, r) := get_building_map self request response in
      let '(self2, rs) := serve self1 rest in
      (self2, r :: rs)
  end.

End BuildingMapServer.

Arguments get_building_map {Request} self request response.
Arguments serve {Request} self calls.

(** ** The wording of the specification, for comparison *)

(** "lowercase": ASCII upper-case letters to lower case. *)
Definition lower_char (c : ascii) : ascii :=
  let n := N_of_ascii c in
  if ((65 <=? n) && (n <=? 90))%N then ascii_of_N (n + 32) else c.

Fixpoint lower (s : string) : string :=
  match s with
  | EmptyString => EmptyString
  | String c s' => String (lower_char c) (lower s')
  end.

Fixpoint has_char (c : ascii) (s : string) : bool :=
  match s with
  | EmptyString => false
  | String c' s' => Ascii.eqb c' c || has_char c s'
  end.

(** "the substring after the last [.] in the filename" *)
Definition after_last_dot (filename suffix : string) : Prop :=
  exists stem, filename = stem +:+ String "." suffix /\
               has_char "." suffix = false.

(** The parameters every door carries "at minimum". *)
Definition required_params : list string :=
  ["name"; "motion_degrees"; "motion_direction"; "type"].

(** ** Shapes of the results, for the statements below *)

(** The image a level with a readable floor plan gets. *)
Definition image_of (level : Model.Level.t) (encoding : string)
    (data : list byte) : Msg.AffineImage.t :=
  let tr := Model.Level.transform level in
  {| Msg.AffineImage.encoding := encoding;
     Msg.AffineImage.scale := Model.Transform.scale tr;
     Msg.AffineImage.x_offset := fst (Model.Transform.translation tr);
     Msg.AffineImage.y_offset := snd (Model.Transform.translation tr);
     Msg.AffineImage.yaw := Model.Transform.rotation tr;
     Msg.AffineImage.data := data |}.

(** The door message, once every step of the loop body has a value. *)
Definition door_of (p_name p_direction p_type : Model.ParamValue.t)
    (v1 v2 : Model.Vertex.t) (motion_range : float) : Msg.Door.t :=
  {| Msg.Door.door_name := Model.ParamValue.value p_name;
     Msg.Door.v1_x := Model.Vertex.x v1;
     Msg.Door.v1_y := Model.Vertex.y v1;
     Msg.Door.v2_x := Model.Vertex.x v2;
     Msg.Door.v2_y := Model.Vertex.y v2;
     Msg.Door.motion_range := motion_range;
     Msg.Door.motion_direction := Model.ParamValue.value p_direction;
     Msg.Door.door_type := door_type_of (Model.ParamValue.value p_type) |}.

(** The same level with another navigation-graph generator. *)
Definition with_generator (level : Model.Level.t)
    (generate : Z -> bool -> Model.NavGraph.t) : Model.Level.t :=
  {| Model.Level.name := Model.Level.name level;
     Model.Level.elevation := Model.Level.elevation level;
     Model.Level.drawing_name := Model.Level.drawing_name level;
     Model.Level.transform := Model.Level.transform level;
     Model.Level.vertices := Model.Level.vertices level;
     Model.Level.doors := Model.Level.doors level;
     Model.Level.generate_nav_graph := generate |}.

(** The graph message of a non-empty graph at index [i]. *)
Definition graph_of (i : Z) (g : Model.NavGraph.t) : Msg.Graph.t :=
  {| Msg.Graph.name := str i;
     Msg.Graph.vertices := map graph_node (Model.NavGraph.vertices g);
     Msg.Graph.edges := map graph_edge (Model.NavGraph.lanes g) |}.

(** The table of door types, as the specification gives it. *)
Definition door_type_table (type : PyValue) (t : Msg.Door.door_type_t)
  : Prop :=
  (type = VStr "sliding" -> t = Msg.Door.DOOR_TYPE_SINGLE_SLIDING) /\
  (type = VStr "hinged" -> t = Msg.Door.DOOR_TYPE_SINGLE_SWING) /\
  (type = VStr "double_sliding" -> t = Msg.Door.DOOR_TYPE_DOUBLE_SLIDING) /\
  (type = VStr "double_hinged" -> t = Msg.Door.DOOR_TYPE_DOUBLE_SWING) /\
  (type <> VStr "sliding" -> type <> VStr "hinged" ->
   type <> VStr "double_sliding" -> type <> VStr "double_hinged" ->
   t = Msg.Door.DOOR_TYPE_UNDEFINED).

(** What a door needs beside its type to be translated: the four
    parameters, both endpoint indices within [-n, n) for the [n]
    vertices of its level, and a [motion_degrees] that [float] accepts.
    Nothing is asked of the value of [type]. *)
Definition door_translates (env : Env) (level : Model.Level.t)
    (door : Model.Door.t) : Prop :=
  let n := Z.of_nat (length (Model.Level.vertices level)) in
  (forall k, In k required_params ->
             exists p, Model.Door.params door !! k = Some p) /\
  - n <= Model.Door.start_idx door < n /\
  - n <= Model.Door.end_idx door < n /\
  (exists p mr, Model.Door.params door !! "motion_degrees" = Some p /\
                py_float env (Model.ParamValue.value p) = Ok mr).

(** ** An environment and a building to run the server on *)

Module Demo.

Import Model.

(** Two image files under [/maps]; every other path cannot be opened. *)
Definition read_file (path : string) : result (list byte) :=
  if String.eqb path "/maps/floor1.PNG" then Ok [x89; x50; x4e; x47]
  else if String.eqb path "/maps/plan" then Ok [x42; x4d]
  else Raise (OSError path).

(** [float] on an int: the nearest double, ties to even; an int that
    rounds beyond the largest double raises [OverflowError]. *)
Definition int_to_float (z : Z) : result float :=
  match SpecFloat.binary_normalize FloatOps.prec FloatOps.emax z 0 false with
  | SpecFloat.S754_infinity _ => Raise OverflowError
  | sf => Ok (FloatOps.SF2Prim sf)
  end.

(** The double nearest to [p / q], for [0 <= p] and [0 < q]: the
    quotient is taken with more than 64 bits and one more bit that
    tells whether anything is left, which is enough to round it. *)
Definition nearest_ratio (negative : bool) (p q : Z) : SpecFloat.spec_float :=
  if p =? 0 then SpecFloat.S754_zero negative
  else
    let s := Z.max 0 (66 + Z.log2 q - Z.log2 p) in
    let n := p * 2 ^ s in
    let sticky := if n mod q =? 0 then 0 else 1 in
    let m := 2 * (n / q) + sticky in
    SpecFloat.binary_normalize FloatOps.prec FloatOps.emax
      (if negative then - m else m) (- s - 1) negative.

(** The double nearest to [m * 10^e10]. *)
Definition nearest_decimal (negative : bool) (m e10 : Z) : float :=
  FloatOps.SF2Prim
    (if 0 <=? e10 then nearest_ratio negative (m * 10 ^ e10) 1
     else nearest_ratio negative m (10 ^ (- e10))).

Definition is_digit (c : ascii) : bool :=
  let n := N_of_ascii c in ((48 <=? n) && (n <=? 57))%N.

Definition digit_value (c : ascii) : Z := Z.of_N (N_of_ascii c) - 48.

Definition is_space (c : ascii) : bool :=
  let n := N_of_ascii c in
  (((9 <=? n) && (n <=? 13)) || ((28 <=? n) && (n <=? 32)))%N.

Fixpoint lstrip_spaces (cs : list ascii) : list ascii :=
  match cs with
  | c :: cs' => if is_space c then lstrip_spaces cs' else cs
  | [] => []
  end.

Definition strip_spaces (cs : list ascii) : list ascii :=
  rev (lstrip_spaces (rev (lstrip_spaces cs))).

(** The rest of a run of digits, in which single underscores may stand
    between two digits: the number read so far, how many digits, and
    what follows. *)
Fixpoint more_digits (cs : list ascii) (acc count : Z)
  : Z * Z * list ascii :=
  match cs with
  | c :: cs' =>
      if is_digit c then more_digits cs' (10 * acc + digit_value c) (count + 1)
      else if Ascii.eqb c "_" then
        match cs' with
        | c2 :: cs'' =>
            if is_digit c2
            then more_digits cs'' (10 * acc + digit_value c2) (count + 1)
            else (acc, count, cs)
        | [] => (acc, count, cs)
        end
      else (acc, count, cs)
  | [] => (acc, count, cs)
  end.

Definition digitpart (cs : list ascii) (acc count : Z)
  : option (Z * Z * list ascii) :=
  match cs with
  | c :: cs' =>
      if is_digit c
      then Some (more_digits cs' (10 * acc + digit_value c) (count + 1))
      else None
  | [] => None
  end.

Definition sign_of (cs : list ascii) : bool * list ascii :=
  match cs with
  | c :: cs' =>
      if Ascii.eqb c "-" then (true, cs')
      else if Ascii.eqb c "+" then (false, cs')
      else (false, cs)
  | [] => (false, [])
  end.

(** [digits], [digits.], [digits.digits] or [.digits]: all the digits as
    one number, how many of them follow the point, and what follows. *)
Definition number (cs : list ascii) : option (Z * Z * list ascii) :=
  match digitpart cs 0 0 with
  | Some (m, _, rest) =>
      match rest with
      | c :: rest' =>
          if Ascii.eqb c "." then
            match digitpart rest' m 0 with
            | Some r => Some r
            | None => Some (m, 0, rest')
            end
          else Some (m, 0, rest)
      | [] => Some (m, 0, [])
      end
  | None =>
      match cs with
      | c :: rest' => if Ascii.eqb c "." then digitpart rest' 0 0 else None
      | [] => None
      end
  end.

(** An optional [e] or [E], sign and digits: the exponent and what
    follows; [None] when the digits are missing. *)
Definition exponent (cs : list ascii) : option (Z * list ascii) :=
  match cs with
  | c :: cs' =>
      if Ascii.eqb c "e" || Ascii.eqb c "E" then
        let (negative, cs'') := sign_of cs' in
        match digitpart cs'' 0 0 with
        | Some (e, _, rest) => Some (if negative then - e else e, rest)
        | None => None
        end
      else Some (0, cs)
  | [] => Some (0, [])
  end.

(** [float] on a string of ASCII characters: white space around is
    dropped; after an optional sign come [inf], [infinity] or [nan] in
    any letter case, or a decimal number with an optional exponent,
    which is rounded to the nearest double; anything else raises
    [ValueError]. *)
Definition str_to_float (s : string) : result float :=
  let (negative, body) := sign_of (strip_spaces (list_ascii_of_string s)) in
  let word := string_of_list_ascii (map lower_char body) in
  if String.eqb word "inf" || String.eqb word "infinity"
  then Ok (if negative then PrimFloat.neg_infinity else PrimFloat.infinity)
  else if String.eqb word "nan" then Ok PrimFloat.nan
  else
    match number body with
    | Some (m, places, rest) =>
        match exponent rest with
        | Some (e, []) => Ok (nearest_decimal negative m (e - places))
        | _ => Raise ValueError
        end
    | None => Raise ValueError
    end.

Definition param (v : PyValue) : ParamValue.t := ParamValue.mk v.

Definition door_params (name type : string) : gmap string ParamValue.t :=
  <["name" := param (VStr name)]>
  (<["motion_degrees" := param (VFloat 90%float)]>
  (<["motion_direction" := param (VInt 1)]>
  (<["type" := param (VStr type)]> ∅))).

Definition identity : Transform.t := Transform.mk 1%float (0%float, 0%float) 0%float.

Definition two_vertices : list Vertex.t :=
  [Vertex.mk 0%float 0%float; Vertex.mk 1%float 0%float].

Definition no_graph : NavGraph.t := NavGraph.mk [] [].

(** One bidirectional lane at index 0, nothing elsewhere. *)
Definition one_lane (i : Z) (always_unidirectional : bool) : NavGraph.t :=
  if i =? 0 then
    NavGraph.mk
      [(0%float, 0%float, NavGraph.mk_vertex_params "a");
       (1%float, 0%float, NavGraph.mk_vertex_params "b")]
      [(0, 1, NavGraph.mk_lane_params (negb always_unidirectional))]
  else no_graph.

(** The level of the end-to-end scenario of section 8. *)
Definition door_hinged : Door.t := Door.mk 0 1 (door_params "d1" "hinged").
Definition L1 : Level.t :=
  Level.mk "L1" 0%float None identity two_vertices [door_hinged] one_lane.

(** A second level, with a floor plan and a door of an unknown type whose
    start vertex is given from the end of the list. *)
Definition door_foo : Door.t := Door.mk (-1) 0 (door_params "d2" "foo").
Definition L2 : Level.t :=
  Level.mk "L2" 4%float (Some "floor1.PNG") identity two_vertices
    [door_foo] one_lane.

Definition lift1 : Lift.t :=
  Lift.mk "lift1" ["L1"; "L2"] 2%float 3%float 0%float 1%float 1%float.
Definition lift2 : Lift.t :=
  Lift.mk "lift2" ["L2"] 5%float 3%float 0%float 1%float 1%float.

Definition building : Building.t :=
  Building.mk "demo" [("L1", L1); ("L2", L2)]
                     [("lift1", lift1); ("lift2", lift2)].

Definition env : Env := mkEnv read_file int_to_float str_to_float.

(** A level whose floor plan has no extension, and no doors. *)
Definition L3 : Level.t :=
  Level.mk "L3" 8%float (Some "plan") identity two_vertices [] one_lane.

(** A door that ends past the two vertices, and a building with it. *)
Definition door_past_end : Door.t := Door.mk 0 2 (door_params "d3" "sliding").
Definition L4 : Level.t :=
  Level.mk "L4" 12%float None identity two_vertices [door_past_end] one_lane.
Definition building_past_end : Building.t :=
  Building.mk "demo" [("L1", L1); ("L4", L4)] [].

(** A door without [type], one whose [motion_degrees] is not a number,
    and a building with each. *)
Definition door_no_type : Door.t :=
  Door.mk 0 1 (delete "type" (door_params "d5" "hinged")).
Definition L5 : Level.t :=
  Level.mk "L5" 16%float None identity two_vertices [door_no_type] one_lane.


Definition unwrap {A} (default : A) (m : result A) : A :=
  match m with Ok a => a | Raise _ => default end.

(** What the builder gives on these, evaluated. *)
Definition L1_door_msgs : list Msg.Door.t :=
  Eval vm_compute in unwrap [] (level_doors env L1).
Definition L2_door_msgs : list Msg.Door.t :=
  Eval vm_compute in unwrap [] (level_doors env L2).
Definition blank_level : Msg.Level.t := Msg.Level.mk "" 0%float [] [] [].
Definition L1_msg : Msg.Level.t :=
  Eval vm_compute in unwrap blank_level (level_msg env "/maps" L1).
Definition L2_msg : Msg.Level.t :=
  Eval vm_compute in unwrap blank_level (level_msg env "/maps" L2).
Definition blank_map : Msg.BuildingMap.t := Msg.BuildingMap.mk "" [] [].
Definition building_msg : Msg.BuildingMap.t :=
  Eval vm_compute in unwrap blank_map (building_map_msg env "/maps" building).

(** The node serving that message, and two calls with empty requests. *)
Definition node : Server := mkServer "/maps" building_msg [].
Definition two_calls : list (unit * Response) :=
  [(tt, mkResponse blank_map); (tt, mkResponse blank_map)].

End Demo.

(** ** Start-up: [__init__] and [main] *)

(** [s.rfind(c)]: the highest index of [c] in [s], or -1. *)
Fixpoint rfind (c : ascii) (s : string) : Z :=
  match s with
  | EmptyString => -1
  | String a s' =>
      let r := rfind c s' in
      if 0 <=? r then r + 1 else if Ascii.eqb a c then 0 else -1
  end.

(** [s[:i]] for [i >= 0]. *)
Fixpoint take_chars (i : nat) (s : string) : string :=
  match i, s with
  | S i', String a s' => String a (take_chars i' s')
  | _, _ => EmptyString
  end.

(** [c * n] *)
Fixpoint repeat_char (c : ascii) (n : nat) : string :=
  match n with
  | O => EmptyString
  | S n' => String c (repeat_char c n')
  end.

(** [s.rstrip(c)] *)
Fixpoint rstrip (c : ascii) (s : string) : string :=
  match s with
  | EmptyString => EmptyString
  | String a s' =>
      match rstrip c s' with
      | EmptyString => if Ascii.eqb a c then EmptyString else String a EmptyString
      | r => String a r
      end
  end.

(** [os.path.dirname(p)] (posixpath): the part up to the last [/], without
    its trailing slashes unless it is made of slashes only. *)
Definition dirname (p : string) : string :=
  let i := rfind "/" p + 1 in
  let head := take_chars (Z.to_nat i) p in
  if negb (String.eqb head "")
     && negb (String.eqb head (repeat_char "/" (String.length head)))
  then rstrip "/" head
  else head.

(** What start-up needs beside [Env]: [os.path.isfile], and the reading
    of the map file, [Building(yaml.safe_load(f))], whose parser is not
    in this file. *)
Record World : Type := mkWorld {
  process_env : Env;
  isfile : string -> bool;
  load_building : string -> result Model.Building.t }.

(** The [QoSProfile] of the [map] publisher. *)
Inductive History : Type := RMW_QOS_POLICY_HISTORY_KEEP_LAST.
Inductive Reliability : Type := RMW_QOS_POLICY_RELIABILITY_RELIABLE.
Inductive Durability : Type := RMW_QOS_POLICY_DURABILITY_TRANSIENT_LOCAL.
Record QoSProfile : Type := mkQoSProfile {
  history : History;
  depth : Z;
  reliability : Reliability;
  durability : Durability }.

(** A publisher: its topic, its profile and what was published on it. *)
Record Publisher : Type := mkPublisher {
  topic : string;
  qos_profile : QoSProfile;
  sent : list Msg.BuildingMap.t }.

(** The node as [__init__] leaves it: the fields [get_building_map]
    reads, the building, the name of the service and the publisher. *)
Record Node : Type := mkNode {
  server : Server;
  building : Model.Building.t;
  get_building_map_srv : string;
  building_map_pub : Publisher }.

Definition dquote : string := String (ascii_of_N 34) EmptyString.

(** [BuildingMapServer.__init__]: the lines logged, and the node or the
    exception that ends the construction. [FileNotFoundError] is an
    [OSError], and is written [OSError map_path]. *)
Definition __init__ (w : World) (map_path : string)
  : list string * result Node :=
  let log1 := ["loading map path: " +:+ map_path] in
  if negb (isfile w map_path) then (log1, Raise (OSError map_path))
  else
    let map_dir := dirname map_path in
    match load_building w map_path with
    | Raise e => (log1, Raise e)
    | Ok building =>
        match building_map_msg (process_env w) map_dir building with
        | Raise e => (log1, Raise e)
        | Ok map_msg =>
            let qos := {| history := RMW_QOS_POLICY_HISTORY_KEEP_LAST;
                          depth := 1;
                          reliability := RMW_QOS_POLICY_RELIABILITY_RELIABLE;
                          durability :=
                            RMW_QOS_POLICY_DURABILITY_TRANSIENT_LOCAL |} in
            let log2 := (log1 ++ ["publishing map..."])%list in
            let pub := {| topic := "map"; qos_profile := qos;
                          sent := [map_msg] |} in
            let log3 :=
              (log2 ++ ["ready to serve map: " +:+ dquote
                        +:+ Msg.BuildingMap.name map_msg +:+ dquote
                        +:+ "  Ctrl+C to exit..."])%list in
            (log3,
             Ok {| server := {| map_dir := map_dir; map_msg := map_msg;
                                logged := log3 |};
                   building := building;
                   get_building_map_srv := "get_building_map";
                   building_map_pub := pub |})
        end
    end.

(** How [main] goes on: [sys.exit(1)] after a line on the console, an
    exception of the constructor that nothing catches, or the node handed
    to [rclpy.spin]. *)
Inductive MainOutcome : Type :=
  | SysExit (status : Z) (stdout : list string)
  | Uncaught (e : exn) (logged : list string)
  | Spin (n : Node).

Definition construct (w : World) (map_path : string) : MainOutcome :=
  match __init__ w map_path with
  | (log, Raise e) => Uncaught e log
  | (_, Ok n) => Spin n
  end.

(** [main], up to the call of [rclpy.spin]. *)
Definition main (w : World) (argv : list string)
    (environ : gmap string string) : MainOutcome :=
  if 1 <? Z.of_nat (length argv) then
    match py_getitem argv 1 with
    | Ok map_path => construct w map_path
    | Raise e => Uncaught e []
    end
  else match environ !! "RMF_MAP_PATH" with
       | Some map_path => construct w map_path
       | None =>
           SysExit 1 ["map path must be provided in command line or RMF_MAP_PATH env"]
       end.

(** A world around the example building. *)
Module DemoWorld.

Definition isfile (path : string) : bool :=
  String.eqb path "/maps/demo.building.yaml".

Definition load_building (path : string) : result Model.Building.t :=
  if String.eqb path "/maps/demo.building.yaml" then Ok Demo.building
  else Raise (OSError path).

Definition world : World := mkWorld Demo.env isfile load_building.

Definition environ : gmap string string :=
  <["RMF_MAP_PATH" := "/maps/demo.building.yaml"]> ∅.

(** A level whose floor plan is not on disk, one whose floor plan is
    given by an absolute path, and a building that fails at its second
    level. *)
Definition L7 : Model.Level.t :=
  Model.Level.mk "L7" 0%float (Some "missing.png") Demo.identity
    Demo.two_vertices [] Demo.one_lane.
Definition L8 : Model.Level.t :=
  Model.Level.mk "L8" 0%float (Some "/maps/plan") Demo.identity
    Demo.two_vertices [] Demo.one_lane.
Definition building_missing_image : Model.Building.t :=
  Model.Building.mk "demo" [("L1", Demo.L1); ("L7", L7); ("L4", Demo.L4)]
    [("lift1", Demo.lift1)].

(** Three lanes at index 2 and one at index 7, nothing elsewhere. *)
Definition two_graphs (i : Z) (always_unidirectional : bool)
  : Model.NavGraph.t :=
  if i =? 2 then
    Model.NavGraph.mk []
      [(0, 1, Model.NavGraph.mk_lane_params true);
       (1, 2, Model.NavGraph.mk_lane_params false);
       (2, 0, Model.NavGraph.mk_lane_params true)]
  else if i =? 7 then
    Model.NavGraph.mk []
      [(0, 1, Model.NavGraph.mk_lane_params false)]
  else Demo.no_graph.
Definition L9 : Model.Level.t :=
  Model.Level.mk "L9" 0%float None Demo.identity Demo.two_vertices []
    two_graphs.
Definition L9_msg : Msg.Level.t :=
  Eval vm_compute in
    Demo.unwrap Demo.blank_level (level_msg Demo.env "/maps" L9).
Definition map_path : string := "/maps/demo.building.yaml".

(** The node the constructor gives in this world, evaluated. *)
Definition blank_node : Node :=
  mkNode (mkServer "" Demo.blank_map []) (Model.Building.mk "" [] []) ""
         (mkPublisher ""
            (mkQoSProfile RMW_QOS_POLICY_HISTORY_KEEP_LAST 0
               RMW_QOS_POLICY_RELIABILITY_RELIABLE
               RMW_QOS_POLICY_DURABILITY_TRANSIENT_LOCAL) []).
Definition node : Node :=
  Eval vm_compute in
    Demo.unwrap blank_node (snd (__init__ world map_path)).

(** The graph of [Demo.one_lane] at index 0, written out. *)
Definition same_lane : Model.NavGraph.t :=
  Model.NavGraph.mk
    [(0%float, 0%float, Model.NavGraph.mk_vertex_params "a");
     (1%float, 0%float, Model.NavGraph.mk_vertex_params "b")]
    [(0, 1, Model.NavGraph.mk_lane_params true)].

End DemoWorld.

(** ** Properties of the run-time helpers *)

Example split_examples :
  split "." "floor1.PNG" = ["floor1"; "PNG"] /\
  split "." "a.tar.gz" = ["a"; "tar"; "gz"] /\
  split "." "plan" = ["plan"] /\
  split "." "plan." = ["plan"; ""] /\
  split "." "" = [""].
Proof. repeat split. Qed.

Example py_getitem_examples :
  py_getitem [10; 20; 30] 2 = Ok 30 /\
  py_getitem [10; 20; 30] 3 = Raise IndexError /\
  py_getitem [10; 20; 30] (-1) = Ok 30 /\
  py_getitem [10; 20; 30] (-3) = Ok 10 /\
  py_getitem [10; 20; 30] (-4) = Raise IndexError.
Proof. repeat split. Qed.

Example path_join_examples :
  path_join "/maps" "floor1.PNG" = "/maps/floor1.PNG" /\
  path_join "/maps/" "floor1.PNG" = "/maps/floor1.PNG" /\
  path_join "" "floor1.PNG" = "floor1.PNG" /\
  path_join "/maps" "/abs/floor1.PNG" = "/abs/floor1.PNG".
Proof. repeat split. Qed.

Example float_examples :
  map Demo.str_to_float
      ["90"; " 90 "; "1.5"; "-5"; "1e3"; "1_000"; ".5"; "1."; "inf"; "nan";
       "9007199254740993"; "1e400"]
  = [Ok 90%float; Ok 90%float; Ok 1.5%float; Ok (-5)%float; Ok 1000%float;
     Ok 1000%float; Ok 0.5%float; Ok 1%float; Ok infinity; Ok nan;
     Ok 9007199254740992%float; Ok infinity] /\
  map Demo.str_to_float ["ninety"; ""; "."; "1__0"; "1_"; "1e"; "0x10"; "1 2"]
  = [Raise ValueError; Raise ValueError; Raise ValueError; Raise ValueError;
     Raise ValueError; Raise ValueError; Raise ValueError; Raise ValueError] /\
  map Demo.int_to_float [0; -7; 2 ^ 53 + 1; 10 ^ 400]
  = [Ok 0%float; Ok (-7)%float; Ok 9007199254740992%float;
     Raise OverflowError].
Proof. repeat split; vm_compute; reflexivity. Qed.

Example str_examples :
  map str (range 0 9) = ["0"; "1"; "2"; "3"; "4"; "5"; "6"; "7"; "8"] /\
  str 120 = "120" /\ str (-7) = "-7".
Proof. repeat split. Qed.

Lemma bind_ok {A B} (m : result A) (k : A -> result B) (b : B) :
  bind m k = Ok b -> exists a, m = Ok a /\ k a = Ok b.
Proof. destruct m as [a|e]; simpl; [eauto | discriminate]. Qed.

Lemma bind_raises {A B} (m : result A) (k : A -> result B) :
  raises m -> raises (bind m k).
Proof. intros [e ->]. exists e. reflexivity. Qed.

Lemma bind_raises_later {A B} (m : result A) (k : A -> result B) :
  (forall a, raises (k a)) -> raises (bind m k).
Proof. intros H. destruct m as [a|e]; simpl; [apply H | eexists; reflexivity]. Qed.

Lemma not_raises_ok {A} (m : result A) (a : A) : m = Ok a -> ~ raises m.
Proof. intros -> [e He]. discriminate. Qed.

Lemma for_each_ok {A B} (f : A -> result B) xs ys :
  for_each f xs = Ok ys -> Forall2 (fun x y => f x = Ok y) xs ys.
Proof.
  revert ys. induction xs as [|x xs IH]; simpl; intros ys H.
  - injection H as <-. constructor.
  - apply bind_ok in H as (y & Hy & H).
    apply bind_ok in H as (ys' & Hys & H).
    injection H as <-. constructor; auto.
Qed.

Lemma for_each_all_ok {A B} (f : A -> result B) xs ys :
  Forall2 (fun x y => f x = Ok y) xs ys -> for_each f xs = Ok ys.
Proof.
  induction 1 as [|x y xs ys Hxy _ IH]; simpl; [reflexivity|].
  rewrite Hxy. simpl. rewrite IH. reflexivity.
Qed.

Lemma for_each_raises {A B} (f : A -> result B) xs x :
  In x xs -> raises (f x) -> raises (for_each f xs).
Proof.
  induction xs as [|x' xs IH]; simpl; [tauto|].
  intros [<-|Hin] Hx.
  - apply bind_raises, Hx.
  - apply bind_raises_later. intros y. apply bind_raises. auto.
Qed.

Lemma py_getitem_unfold {A} (xs : list A) (i j : Z) :
  (if i <? 0 then i + Z.of_nat (length xs) else i) = j ->
  0 <= j < Z.of_nat (length xs) ->
  py_getitem xs i = match xs !! Z.to_nat j with
                    | Some x => Ok x
                    | None => Raise IndexError
                    end.
Proof.
  intros Hj Hr. unfold py_getitem. cbv zeta. rewrite Hj.
  destruct (Z.ltb_spec j 0); [lia|].
  destruct (Z.leb_spec (Z.of_nat (length xs)) j); [lia|].
  reflexivity.
Qed.

Lemma py_getitem_ge {A} (xs : list A) (i : Z) :
  Z.of_nat (length xs) <= i -> py_getitem xs i = Raise IndexError.
Proof.
  intros Hi. unfold py_getitem. cbv zeta.
  destruct (Z.ltb_spec i 0); [lia|].
  destruct (Z.ltb_spec i 0); [lia|].
  destruct (Z.leb_spec (Z.of_nat (length xs)) i); [|lia].
  reflexivity.
Qed.

Lemma py_getitem_nonneg {A} (xs : list A) (i : Z) (x : A) :
  0 <= i -> xs !! Z.to_nat i = Some x -> py_getitem xs i = Ok x.
Proof.
  intros Hi Hx.
  pose proof (lookup_lt_Some _ _ _ Hx) as Hlt.
  rewrite (py_getitem_unfold xs i i).
  - rewrite Hx. reflexivity.
  - destruct (Z.ltb_spec i 0); [lia|reflexivity].
  - lia.
Qed.

Lemma py_getitem_neg {A} (xs : list A) (i : Z) :
  - Z.of_nat (length xs) <= i < 0 ->
  exists x, xs !! Z.to_nat (Z.of_nat (length xs) + i) = Some x /\
            py_getitem xs i = Ok x.
Proof.
  intros Hi.
  rewrite (py_getitem_unfold xs i (Z.of_nat (length xs) + i)).
  - destruct (xs !! Z.to_nat (Z.of_nat (length xs) + i)) as [x|] eqn:E.
    + exists x. split; reflexivity.
    + apply lookup_ge_None in E. lia.
  - destruct (Z.ltb_spec i 0); lia.
  - lia.
Qed.

Lemma py_getitem_in_range {A} (xs : list A) (i : Z) :
  - Z.of_nat (length xs) <= i < Z.of_nat (length xs) ->
  exists x, py_getitem xs i = Ok x.
Proof.
  intros Hi. destruct (Z.ltb_spec i 0).
  - destruct (py_getitem_neg xs i) as (x & _ & Hx); [lia|eauto].
  - destruct (xs !! Z.to_nat i) as [x|] eqn:E.
    + exists x. apply py_getitem_nonneg; auto.
    + apply lookup_ge_None in E. lia.
Qed.

Lemma split_cons (sep : ascii) (s : string) :
  exists hd tl, split sep s = hd :: tl.
Proof.
  destruct s as [|c s]; simpl; [eauto|].
  destruct (Ascii.eqb c sep); [eauto|].
  destruct (split sep s); eauto.
Qed.

Lemma split_no_sep (sep : ascii) (s : string) :
  has_char sep s = false -> split sep s = [s].
Proof.
  induction s as [|c s IH]; simpl; [reflexivity|].
  intros H. apply orb_false_iff in H as [Hc Hs].
  rewrite Hc, (IH Hs). reflexivity.
Qed.

Lemma split_app (sep : ascii) (stem suffix : string) :
  split sep (stem +:+ String sep suffix)
  = (split sep stem ++ split sep suffix)%list.
Proof.
  induction stem as [|c stem IH]; simpl.
  - rewrite Ascii.eqb_refl. reflexivity.
  - destruct (Ascii.eqb c sep); rewrite IH; [reflexivity|].
    destruct (split_cons sep stem) as (hd & tl & ->). reflexivity.
Qed.

Lemma py_getitem_last {A} (xs : list A) (x : A) :
  py_getitem (xs ++ [x])%list (-1) = Ok x.
Proof.
  destruct (py_getitem_neg (xs ++ [x])%list (-1)) as (y & Hy & ->).
  - rewrite length_app. simpl. lia.
  - rewrite length_app in Hy. simpl in Hy.
    replace (Z.to_nat (Z.of_nat (length xs + 1) + -1)) with (length xs + 0)%nat in Hy by lia.
    rewrite lookup_app_r in Hy by lia.
    replace (length xs + 0 - length xs)%nat with 0%nat in Hy by lia.
    simpl in Hy. congruence.
Qed.

(** ** Properties of the builder *)

Section Builder.

Variable env : Env.

Lemma level_msg_ok map_dir level images doors :
  level_images env map_dir level = Ok images ->
  level_doors env level = Ok doors ->
  level_msg env map_dir level =
    Ok {| Msg.Level.name := Model.Level.name level;
          Msg.Level.elevation := Model.Level.elevation level;
          Msg.Level.images := images;
          Msg.Level.doors := doors;
          Msg.Level.nav_graphs := level_nav_graphs level |}.
Proof. intros Hi Hd. unfold level_msg. rewrite Hi, Hd. reflexivity. Qed.

Lemma level_msg_inv map_dir level msg :
  level_msg env map_dir level = Ok msg ->
  level_images env map_dir level = Ok (Msg.Level.images msg) /\
  level_doors env level = Ok (Msg.Level.doors msg) /\
  Msg.Level.nav_graphs msg = level_nav_graphs level /\
  Msg.Level.name msg = Model.Level.name level /\
  Msg.Level.elevation msg = Model.Level.elevation level.
Proof.
  unfold level_msg. intros H.
  apply bind_ok in H as (images & Hi & H).
  apply bind_ok in H as (doors & Hd & H).
  injection H as <-. simpl. auto.
Qed.

Lemma image_encoding_suffix stem suffix :
  has_char "." suffix = false ->
  image_encoding (stem +:+ String "." suffix) = Ok suffix.
Proof.
  intros H. unfold image_encoding.
  rewrite split_app, (split_no_sep _ _ H). apply py_getitem_last.
Qed.

Lemma image_encoding_no_dot filename :
  has_char "." filename = false -> image_encoding filename = Ok filename.
Proof.
  intros H. unfold image_encoding. rewrite (split_no_sep _ _ H).
  apply (py_getitem_last []).
Qed.

Lemma truthy_name_nonempty filename :
  filename <> "" -> truthy_name (Some filename) = Some filename.
Proof. destruct filename; [congruence | reflexivity]. Qed.

Lemma level_images_ok map_dir level filename encoding data :
  Model.Level.drawing_name level = Some filename ->
  filename <> "" ->
  image_encoding filename = Ok encoding ->
  read_file env (path_join map_dir filename) = Ok data ->
  level_images env map_dir level = Ok [image_of level encoding data].
Proof.
  intros Hn Hne He Hr. unfold level_images.
  rewrite Hn, (truthy_name_nonempty _ Hne), He. simpl. rewrite Hr. reflexivity.
Qed.

Lemma level_images_length map_dir level images :
  level_images env map_dir level = Ok images ->
  length images =
    match truthy_name (Model.Level.drawing_name level) with
    | Some _ => 1%nat
    | None => 0%nat
    end.
Proof.
  unfold level_images.
  destruct (truthy_name (Model.Level.drawing_name level)); intros H.
  - apply bind_ok in H as (e & _ & H). apply bind_ok in H as (d & _ & H).
    injection H as <-. reflexivity.
  - injection H as <-. reflexivity.
Qed.

(** C1 (as amended): for a level whose floor-plan filename is
    [stem.suffix] with no further [.] in [suffix], whose file can be read
    and whose doors translate, [level_msg] returns a message with exactly
    one image, and its [encoding] is [suffix] as written in the filename,
    in the filename's own letter case. *)
Theorem C1_encoding_is_literal_suffix
    map_dir level filename suffix data doors :
  Model.Level.drawing_name level = Some filename ->
  after_last_dot filename suffix ->
  read_file env (path_join map_dir filename) = Ok data ->
  level_doors env level = Ok doors ->
  exists msg,
    level_msg env map_dir level = Ok msg /\
    Msg.Level.images msg = [image_of level suffix data] /\
    Msg.AffineImage.encoding (image_of level suffix data) = suffix.
Proof.
  intros Hn (stem & -> & Hs) Hr Hd.
  eexists. split; [|split; [|reflexivity]].
  - apply level_msg_ok; [|exact Hd].
    eapply level_images_ok; eauto using image_encoding_suffix.
    destruct stem; discriminate.
  - reflexivity.
Qed.

(** C5: a level without a floor-plan reference ([drawing_name] is [None]
    or empty) gets no image entry; a level with one gets exactly one. *)
Theorem C5_image_entries map_dir level msg :
  level_msg env map_dir level = Ok msg ->
  (Model.Level.drawing_name level = None \/
   Model.Level.drawing_name level = Some "" ->
   Msg.Level.images msg = []) /\
  (forall filename,
     Model.Level.drawing_name level = Some filename -> filename <> "" ->
     length (Msg.Level.images msg) = 1%nat).
Proof.
  intros H. apply level_msg_inv in H as (Hi & _).
  apply level_images_length in Hi. split.
  - intros [Hn|Hn]; rewrite Hn in Hi; simpl in Hi;
      destruct (Msg.Level.images msg); [reflexivity|discriminate|reflexivity|discriminate].
  - intros filename Hn Hne. rewrite Hn, (truthy_name_nonempty _ Hne) in Hi.
    exact Hi.
Qed.

(** C9: a floor-plan filename without any [.] does not make the build
    fail: the encoding is computed, and it is the whole filename; when
    the file can be read and the doors translate, [level_msg] returns a
    message whose one image has that encoding. *)
Theorem C9_encoding_without_dot map_dir level filename data doors :
  Model.Level.drawing_name level = Some filename ->
  filename <> "" ->
  has_char "." filename = false ->
  read_file env (path_join map_dir filename) = Ok data ->
  level_doors env level = Ok doors ->
  image_encoding filename = Ok filename /\
  exists msg,
    level_msg env map_dir level = Ok msg /\
    Msg.Level.images msg = [image_of level filename data] /\
    Msg.AffineImage.encoding (image_of level filename data) = filename.
Proof.
  intros Hn Hne Hc Hr Hd. split; [apply image_encoding_no_dot, Hc|].
  eexists. split; [|split; [|reflexivity]].
  - apply level_msg_ok; [|exact Hd].
    eapply level_images_ok; eauto using image_encoding_no_dot.
  - reflexivity.
Qed.

(** *** Doors *)


Lemma dict_getitem_ok {V} (d : gmap string V) k v :
  dict_getitem d k = Ok v <-> d !! k = Some v.
Proof.
  unfold dict_getitem. destruct (d !! k); split; intros H;
    try discriminate; congruence.
Qed.

Lemma door_msg_ok level door p_name p_degrees p_direction p_type v1 v2 mr :
  Model.Door.params door !! "name" = Some p_name ->
  Model.Door.params door !! "motion_degrees" = Some p_degrees ->
  Model.Door.params door !! "motion_direction" = Some p_direction ->
  Model.Door.params door !! "type" = Some p_type ->
  py_getitem (Model.Level.vertices level) (Model.Door.start_idx door) = Ok v1 ->
  py_getitem (Model.Level.vertices level) (Model.Door.end_idx door) = Ok v2 ->
  py_float env (Model.ParamValue.value p_degrees) = Ok mr ->
  door_msg env level door = Ok (door_of p_name p_direction p_type v1 v2 mr).
Proof.
  intros Hn Hg Hd Ht H1 H2 Hf. unfold door_msg, dict_getitem.
  rewrite Hn, Hg, Hd, Ht, H1, H2. simpl. rewrite Hf. reflexivity.
Qed.

Lemma door_msg_inv level door d :
  door_msg env level door = Ok d ->
  exists p_name p_degrees p_direction p_type v1 v2 mr,
    Model.Door.params door !! "name" = Some p_name /\
    Model.Door.params door !! "motion_degrees" = Some p_degrees /\
    Model.Door.params door !! "motion_direction" = Some p_direction /\
    Model.Door.params door !! "type" = Some p_type /\
    py_getitem (Model.Level.vertices level) (Model.Door.start_idx door) = Ok v1 /\
    py_getitem (Model.Level.vertices level) (Model.Door.end_idx door) = Ok v2 /\
    py_float env (Model.ParamValue.value p_degrees) = Ok mr /\
    d = door_of p_name p_direction p_type v1 v2 mr.
Proof.
  unfold door_msg. intros H.
  apply bind_ok in H as (p_name & Hn & H).
  apply bind_ok in H as (v1 & H1 & H).
  apply bind_ok in H as (v1' & H1' & H).
  apply bind_ok in H as (v2 & H2 & H).
  apply bind_ok in H as (v2' & H2' & H).
  apply bind_ok in H as (p_degrees & Hg & H).
  apply bind_ok in H as (mr & Hf & H).
  apply bind_ok in H as (p_direction & Hd & H).
  apply bind_ok in H as (p_type & Ht & H).
  injection H as <-.
  assert (v1' = v1) as -> by congruence.
  assert (v2' = v2) as -> by congruence.
  apply dict_getitem_ok in Hn, Hg, Hd, Ht.
  exists p_name, p_degrees, p_direction, p_type, v1, v2, mr. tauto.
Qed.

(** A step of a sequence of statements raises: so does the sequence,
    whatever the steps before it gave. *)
Ltac raises_at_step :=
  first [ apply bind_raises; assumption
        | apply bind_raises_later; intros ?; raises_at_step ].

Lemma door_msg_raises_index level door :
  Z.of_nat (length (Model.Level.vertices level)) <= Model.Door.start_idx door \/
  Z.of_nat (length (Model.Level.vertices level)) <= Model.Door.end_idx door ->
  raises (door_msg env level door).
Proof.
  intros [H|H]; apply py_getitem_ge in H;
    assert (raises (py_getitem (Model.Level.vertices level)
                               (Model.Door.start_idx door)) \/
            raises (py_getitem (Model.Level.vertices level)
                               (Model.Door.end_idx door))) as [Hr|Hr]
      by (rewrite H; first [left; eexists; reflexivity | right; eexists; reflexivity]);
    unfold door_msg; raises_at_step.
Qed.



Lemma level_doors_raises level door :
  In door (Model.Level.doors level) ->
  raises (door_msg env level door) -> raises (level_doors env level).
Proof.
  intros Hin Hr. unfold level_doors.
  destruct (Model.Level.doors level) as [|d ds] eqn:E; [destruct Hin|].
  change (Z.of_nat (length (d :: ds)) =? 0) with false.
  eapply for_each_raises; eauto.
Qed.


Lemma level_msg_raises_doors map_dir level :
  raises (level_doors env level) -> raises (level_msg env map_dir level).
Proof. intros H. unfold level_msg. raises_at_step. Qed.

Lemma building_map_msg_raises map_dir building key level :
  In (key, level) (Model.Building.levels building) ->
  raises (level_msg env map_dir level) ->
  raises (building_map_msg env map_dir building).
Proof.
  intros Hin Hr. unfold building_map_msg. apply bind_raises.
  eapply for_each_raises; [exact Hin|exact Hr].
Qed.

(** C2: a door whose start or end index is at least the number of
    vertices of its level makes the build fail: the door, its level and
    the building all raise, and no message is produced. *)
Theorem C2_door_index_out_of_range_fails map_dir building key level door :
  In (key, level) (Model.Building.levels building) ->
  In door (Model.Level.doors level) ->
  Z.of_nat (length (Model.Level.vertices level)) <= Model.Door.start_idx door \/
  Z.of_nat (length (Model.Level.vertices level)) <= Model.Door.end_idx door ->
  raises (door_msg env level door) /\
  raises (level_msg env map_dir level) /\
  raises (building_map_msg env map_dir building) /\
  forall msg, building_map_msg env map_dir building <> Ok msg.
Proof.
  intros Hl Hd Hi.
  assert (raises (door_msg env level door)) as H1
    by (apply door_msg_raises_index, Hi).
  assert (raises (level_msg env map_dir level)) as H2
    by (eapply level_msg_raises_doors, level_doors_raises; eauto).
  assert (raises (building_map_msg env map_dir building)) as H3
    by (eapply building_map_msg_raises; eauto).
  repeat split; auto.
  intros msg Hm. exact (not_raises_ok _ _ Hm H3).
Qed.

Lemma door_type_of_other (v : PyValue) :
  v <> VStr "sliding" -> v <> VStr "hinged" ->
  v <> VStr "double_sliding" -> v <> VStr "double_hinged" ->
  door_type_of v = Msg.Door.DOOR_TYPE_UNDEFINED.
Proof.
  intros H1 H2 H3 H4. unfold door_type_of, py_eq_str.
  destruct v as [s| | |]; try reflexivity.
  destruct (String.eqb_spec s "sliding"); [congruence|].
  destruct (String.eqb_spec s "hinged"); [congruence|].
  destruct (String.eqb_spec s "double_sliding"); [congruence|].
  destruct (String.eqb_spec s "double_hinged"); [congruence|].
  reflexivity.
Qed.

Lemma door_type_of_table (v : PyValue) : door_type_table v (door_type_of v).
Proof.
  unfold door_type_table.
  repeat split; try (intros ->; reflexivity).
  apply door_type_of_other.
Qed.

Lemma door_translates_ok level door :
  door_translates env level door ->
  exists p_name p_degrees p_direction p_type v1 v2 mr,
    Model.Door.params door !! "name" = Some p_name /\
    Model.Door.params door !! "motion_degrees" = Some p_degrees /\
    Model.Door.params door !! "motion_direction" = Some p_direction /\
    Model.Door.params door !! "type" = Some p_type /\
    py_getitem (Model.Level.vertices level) (Model.Door.start_idx door) = Ok v1 /\
    py_getitem (Model.Level.vertices level) (Model.Door.end_idx door) = Ok v2 /\
    py_float env (Model.ParamValue.value p_degrees) = Ok mr /\
    door_msg env level door
    = Ok (door_of p_name p_direction p_type v1 v2 mr).
Proof.
  intros (Hk & H1 & H2 & (pg & mr & Hg & Hf)).
  destruct (Hk "name") as (pn & Hn); [simpl; auto|].
  destruct (Hk "motion_direction") as (pd & Hd); [simpl; auto|].
  destruct (Hk "type") as (pt & Ht); [simpl; auto|].
  destruct (py_getitem_in_range _ _ H1) as (v1 & Hv1).
  destruct (py_getitem_in_range _ _ H2) as (v2 & Hv2).
  exists pn, pg, pd, pt, v1, v2, mr.
  repeat split; try assumption. eapply door_msg_ok; eauto.
Qed.

Lemma level_doors_all_ok level doors :
  Forall2 (fun door d => door_msg env level door = Ok d)
          (Model.Level.doors level) doors ->
  level_doors env level = Ok doors.
Proof.
  intros H. unfold level_doors.
  destruct (Model.Level.doors level) as [|d ds] eqn:E.
  - inversion H. reflexivity.
  - change (Z.of_nat (length (d :: ds)) =? 0) with false.
    apply for_each_all_ok, H.
Qed.

(** The doors of a level translate, each to the message of its own
    parameters and vertices, when each of them can be translated. *)
Lemma level_doors_translate level :
  Forall (door_translates env level) (Model.Level.doors level) ->
  exists doors,
    level_doors env level = Ok doors /\
    Forall2 (fun door d =>
               exists p_name p_degrees p_direction p_type v1 v2 mr,
                 Model.Door.params door !! "type" = Some p_type /\
                 py_getitem (Model.Level.vertices level)
                            (Model.Door.start_idx door) = Ok v1 /\
                 py_getitem (Model.Level.vertices level)
                            (Model.Door.end_idx door) = Ok v2 /\
                 door_msg env level door = Ok d /\
                 d = door_of p_name p_direction p_type v1 v2 mr /\
                 Model.Door.params door !! "name" = Some p_name /\
                 Model.Door.params door !! "motion_degrees" = Some p_degrees /\
                 Model.Door.params door !! "motion_direction"
                   = Some p_direction /\
                 py_float env (Model.ParamValue.value p_degrees) = Ok mr /\
                 door_translates env level door)
            (Model.Level.doors level) doors.
Proof.
  intros H.
  assert (exists doors,
            Forall2 (fun door d =>
               exists p_name p_degrees p_direction p_type v1 v2 mr,
                 Model.Door.params door !! "type" = Some p_type /\
                 py_getitem (Model.Level.vertices level)
                            (Model.Door.start_idx door) = Ok v1 /\
                 py_getitem (Model.Level.vertices level)
                            (Model.Door.end_idx door) = Ok v2 /\
                 door_msg env level door = Ok d /\
                 d = door_of p_name p_direction p_type v1 v2 mr /\
                 Model.Door.params door !! "name" = Some p_name /\
                 Model.Door.params door !! "motion_degrees" = Some p_degrees /\
                 Model.Door.params door !! "motion_direction"
                   = Some p_direction /\
                 py_float env (Model.ParamValue.value p_degrees) = Ok mr /\
                 door_translates env level door)
            (Model.Level.doors level) doors) as (doors & Hd).
  { induction H as [|door rest Hdoor _ (ds & IH)]; [exists []; constructor|].
    destruct (door_translates_ok _ _ Hdoor)
      as (pn & pg & pd & pt & v1 & v2 & mr & Hn & Hg & Hdir & Ht & H1 & H2 & Hf & Hm).
    exists (door_of pn pd pt v1 v2 mr :: ds). constructor; [|exact IH].
    exists pn, pg, pd, pt, v1, v2, mr.
    split; [exact Ht|]. split; [exact H1|]. split; [exact H2|].
    split; [exact Hm|]. split; [reflexivity|]. split; [exact Hn|].
    split; [exact Hg|]. split; [exact Hdir|]. split; [exact Hf|exact Hdoor]. }
  exists doors. split; [|exact Hd].
  apply level_doors_all_ok.
  eapply Forall2_impl; [exact Hd|].
  intros door d (pn & pg & pd & pt & v1 & v2 & mr & _ & _ & _ & Hm & _).
  exact Hm.
Qed.

(** C3: in a level whose floor plan, if any, can be read and whose doors
    have their parameters, endpoints and motion range in order, every
    door reaches the level message whatever its [type] is (nothing is
    raised for an unknown type), and the [door_type] of the message of
    each door follows the table: sliding, hinged, double_sliding and
    double_hinged give single-sliding, single-swing, double-sliding and
    double-swing, every other value gives undefined. *)
Theorem C3_door_type_mapping map_dir level images :
  level_images env map_dir level = Ok images ->
  Forall (door_translates env level) (Model.Level.doors level) ->
  exists msg,
    level_msg env map_dir level = Ok msg /\
    Forall2 (fun door d =>
               exists p_type,
                 Model.Door.params door !! "type" = Some p_type /\
                 door_type_table (Model.ParamValue.value p_type)
                                 (Msg.Door.door_type d))
            (Model.Level.doors level) (Msg.Level.doors msg).
Proof.
  intros Hi Hd.
  destruct (level_doors_translate level Hd) as (doors & Hok & Hall).
  eexists. split; [apply level_msg_ok; eassumption|]. simpl.
  eapply Forall2_impl; [exact Hall|].
  intros door d (pn & pg & pd & pt & v1 & v2 & mr & Ht & _ & _ & _ & -> & _).
  exists pt. split; [exact Ht|]. apply door_type_of_table.
Qed.


(** C10: with [n >= 1] vertices, in a level whose floor plan, if any,
    can be read and whose doors have their parameters in order and their
    endpoint indices in [-n, n), the build of the level does not fail,
    and in the message of each door an endpoint given by an index [i]
    with [-n <= i < 0] has the coordinates of the vertex at position
    [n + i]. *)
Theorem C10_negative_index_accepted map_dir level images :
  let n := Z.of_nat (length (Model.Level.vertices level)) in
  1 <= n ->
  level_images env map_dir level = Ok images ->
  Forall (door_translates env level) (Model.Level.doors level) ->
  exists msg,
    level_msg env map_dir level = Ok msg /\
    Forall2 (fun door d =>
               (Model.Door.start_idx door < 0 ->
                exists v,
                  Model.Level.vertices level
                    !! Z.to_nat (n + Model.Door.start_idx door) = Some v /\
                  Msg.Door.v1_x d = Model.Vertex.x v /\
                  Msg.Door.v1_y d = Model.Vertex.y v) /\
               (Model.Door.end_idx door < 0 ->
                exists v,
                  Model.Level.vertices level
                    !! Z.to_nat (n + Model.Door.end_idx door) = Some v /\
                  Msg.Door.v2_x d = Model.Vertex.x v /\
                  Msg.Door.v2_y d = Model.Vertex.y v))
            (Model.Level.doors level) (Msg.Level.doors msg).
Proof.
  intros n Hn Hi Hd.
  destruct (level_doors_translate level Hd) as (doors & Hok & Hall).
  eexists. split; [apply level_msg_ok; eassumption|]. simpl.
  eapply Forall2_impl; [exact Hall|].
  intros door d
    (pn & pg & pd & pt & v1 & v2 & mr & _ & H1 & H2 & _ & -> & _ & _ & _ & _ & Ht).
  destruct Ht as (_ & Hr1 & Hr2 & _). fold n in Hr1, Hr2.
  split; intros Hneg.
  - destruct (py_getitem_neg (Model.Level.vertices level)
                             (Model.Door.start_idx door))
      as (x & Hx & Hg); [fold n; lia|]. fold n in Hx.
    exists v1. split; [congruence|]. split; reflexivity.
  - destruct (py_getitem_neg (Model.Level.vertices level)
                             (Model.Door.end_idx door))
      as (x & Hx & Hg); [fold n; lia|]. fold n in Hx.
    exists v2. split; [congruence|]. split; reflexivity.
Qed.

(** *** Navigation graphs *)

Lemma str_digit_inj i k :
  0 <= i <= 8 -> 0 <= k <= 8 -> str i = str k -> i = k.
Proof.
  intros Hi Hk.
  assert (i = 0 \/ i = 1 \/ i = 2 \/ i = 3 \/ i = 4 \/ i = 5 \/ i = 6 \/
          i = 7 \/ i = 8) as Ei by lia.
  assert (k = 0 \/ k = 1 \/ k = 2 \/ k = 3 \/ k = 4 \/ k = 5 \/ k = 6 \/
          k = 7 \/ k = 8) as Ek by lia.
  clear Hi Hk.
  repeat (destruct Ei as [->|Ei]); try subst i;
    repeat (destruct Ek as [->|Ek]); try subst k;
    intros H; first [reflexivity | vm_compute in H; discriminate H].
Qed.

Lemma nav_graph_step_cases level i :
  let g := Model.Level.generate_nav_graph level i false in
  (Model.NavGraph.lanes g = [] /\ nav_graph_step level i = []) \/
  (Model.NavGraph.lanes g <> [] /\ nav_graph_step level i = [graph_of i g]).
Proof.
  unfold nav_graph_step, graph_of.
  destruct (Model.NavGraph.lanes (Model.Level.generate_nav_graph level i false));
    [left|right]; split; congruence.
Qed.

Lemma filter_nav_graph_step level i k :
  0 <= i <= 8 -> 0 <= k <= 8 ->
  filter (fun gm => Msg.Graph.name gm = str k) (nav_graph_step level i)
  = if decide (i = k) then nav_graph_step level k else [].
Proof.
  intros Hi Hk.
  destruct (nav_graph_step_cases level i) as [(_ & E)|(_ & E)].
  - rewrite E. destruct (decide (i = k)) as [<-|]; [rewrite E|]; reflexivity.
  - rewrite E. destruct (decide (i = k)) as [<-|Hne].
    + rewrite E. rewrite filter_cons_True by reflexivity. reflexivity.
    + rewrite filter_cons_False; [reflexivity|].
      simpl. intros H. apply Hne, str_digit_inj; assumption.
Qed.

Lemma filter_nav_graphs level k ks :
  NoDup ks -> Forall (fun i => 0 <= i <= 8) ks -> 0 <= k <= 8 ->
  filter (fun gm => Msg.Graph.name gm = str k) (flat_map (nav_graph_step level) ks)
  = if decide (k ∈ ks) then nav_graph_step level k else [].
Proof.
  intros Hnd Hks Hk. induction ks as [|i ks IH]; simpl.
  - destruct (decide (k ∈ [])) as [H|]; [inversion H|reflexivity].
  - apply NoDup_cons in Hnd as [Hi Hnd]. apply Forall_cons in Hks as [Hi8 Hks].
    rewrite filter_app, filter_nav_graph_step, (IH Hnd Hks) by assumption.
    destruct (decide (i = k)) as [->|Hne].
    + rewrite (decide_False (P := k ∈ ks)) by assumption.
      rewrite (decide_True (P := k ∈ k :: ks)) by (left).
      apply app_nil_r.
    + simpl. destruct (decide (k ∈ ks)) as [Hin|Hnin].
      * rewrite decide_True; [reflexivity|]. right. assumption.
      * rewrite decide_False; [reflexivity|].
        intros H. apply elem_of_cons in H as [->|H]; [apply Hne|apply Hnin]; auto.
Qed.

Lemma filter_level_nav_graphs level k :
  0 <= k <= 8 ->
  filter (fun gm => Msg.Graph.name gm = str k) (level_nav_graphs level)
  = nav_graph_step level k.
Proof.
  intros Hk. unfold level_nav_graphs, range.
  rewrite filter_nav_graphs; [| apply NoDup_seqZ | | exact Hk].
  - apply decide_True, elem_of_seqZ. lia.
  - apply Forall_forall. intros i Hi. apply elem_of_seqZ in Hi. lia.
Qed.

Lemma level_nav_graphs_ext level generate :
  (forall i, 0 <= i <= 8 ->
     generate i false = Model.Level.generate_nav_graph level i false) ->
  level_nav_graphs (with_generator level generate) = level_nav_graphs level.
Proof.
  intros H. unfold level_nav_graphs, range.
  assert (Forall (fun i => 0 <= i <= 8) (seqZ 0 (9 - 0))) as Hr.
  { apply Forall_forall. intros i Hi. apply elem_of_seqZ in Hi. lia. }
  induction Hr as [|i ks Hi _ IH]; simpl; [reflexivity|].
  rewrite IH. f_equal. unfold nav_graph_step. simpl. rewrite (H i Hi).
  reflexivity.
Qed.

Lemma level_msg_with_generator map_dir level generate :
  (forall i, 0 <= i <= 8 ->
     generate i false = Model.Level.generate_nav_graph level i false) ->
  level_msg env map_dir (with_generator level generate)
  = level_msg env map_dir level.
Proof.
  intros H. unfold level_msg.
  rewrite (level_nav_graphs_ext level generate H). reflexivity.
Qed.

(** C4: in a translated level, for every index [k] from 0 to 8: when
    the generator (asked with [always_unidirectional=False]) has no lane
    at [k], no graph is named [str k]; when it has lanes, exactly one
    graph is named [str k], and its edges are the lanes, in order. An
    edge is bidirectional exactly when its lane is marked so, and
    unidirectional otherwise. The message depends on the generator only
    through its values at indices 0 to 8 with the flag false. *)
Theorem C4_nav_graphs_by_index map_dir level msg :
  level_msg env map_dir level = Ok msg ->
  (forall k, 0 <= k <= 8 ->
     let g := Model.Level.generate_nav_graph level k false in
     (Model.NavGraph.lanes g = [] ->
        forall gm, In gm (Msg.Level.nav_graphs msg) ->
                   Msg.Graph.name gm <> str k) /\
     (Model.NavGraph.lanes g <> [] ->
        filter (fun gm => Msg.Graph.name gm = str k) (Msg.Level.nav_graphs msg)
        = [graph_of k g] /\
        Msg.Graph.name (graph_of k g) = str k /\
        Msg.Graph.edges (graph_of k g) = map graph_edge (Model.NavGraph.lanes g))) /\
  (forall l,
     (Msg.GraphEdge.edge_type (graph_edge l) = Msg.GraphEdge.EDGE_TYPE_BIDIRECTIONAL
      <-> Model.NavGraph.is_bidirectional (snd l) = true) /\
     (Msg.GraphEdge.edge_type (graph_edge l) = Msg.GraphEdge.EDGE_TYPE_UNIDIRECTIONAL
      <-> Model.NavGraph.is_bidirectional (snd l) = false)) /\
  (forall generate,
     (forall i, 0 <= i <= 8 ->
        generate i false = Model.Level.generate_nav_graph level i false) ->
     level_msg env map_dir (with_generator level generate) = Ok msg).
Proof.
  intros Hm. pose proof (level_msg_inv _ _ _ Hm) as (_ & _ & Hg & _).
  split; [|split].
  - intros k Hk g.
    pose proof (filter_level_nav_graphs level k Hk) as Hf.
    rewrite <- Hg in Hf.
    destruct (nav_graph_step_cases level k) as [(Hl & E)|(Hl & E)];
      fold g in Hl; rewrite E in Hf; split; intros Hl'; try congruence.
    + intros gm Hin Hname.
      assert (gm ∈ filter (fun gm => Msg.Graph.name gm = str k)
                          (Msg.Level.nav_graphs msg)) as Hin'
        by (apply list_elem_of_filter; split; [exact Hname|apply list_elem_of_In, Hin]).
      rewrite Hf in Hin'. inversion Hin'.
    + auto.
  - intros l. unfold graph_edge. simpl.
    destruct (Model.NavGraph.is_bidirectional (snd l)); split; split; congruence.
  - intros generate H. rewrite level_msg_with_generator; assumption.
Qed.

(** *** Levels and lifts *)

Lemma building_map_msg_inv map_dir building msg :
  building_map_msg env map_dir building = Ok msg ->
  Forall2 (fun item lm => level_msg env map_dir (snd item) = Ok lm)
          (Model.Building.levels building) (Msg.BuildingMap.levels msg) /\
  Msg.BuildingMap.lifts msg
    = map (fun item => lift_msg (snd item)) (Model.Building.lifts building) /\
  Msg.BuildingMap.name msg = Model.Building.name building.
Proof.
  unfold building_map_msg. intros H.
  apply bind_ok in H as (levels & Hl & H). injection H as <-. simpl.
  split; [|split; reflexivity].
  apply for_each_ok in Hl. exact Hl.
Qed.

(** C6: the names of the level messages are the names of the model's
    levels in the order of [building.levels], and the names of the lift
    messages those of the lifts in the order of [building.lifts]. *)
Theorem C6_order_preserved map_dir building msg :
  building_map_msg env map_dir building = Ok msg ->
  map Msg.Level.name (Msg.BuildingMap.levels msg)
    = map (fun item => Model.Level.name (snd item))
          (Model.Building.levels building) /\
  map Msg.Lift.name (Msg.BuildingMap.lifts msg)
    = map (fun item => Model.Lift.name (snd item))
          (Model.Building.lifts building).
Proof.
  intros H. apply building_map_msg_inv in H as (Hl & -> & _). split.
  - induction Hl as [|item lm items lms Hlm _ IH]; simpl; [reflexivity|].
    apply level_msg_inv in Hlm as (_ & _ & _ & -> & _). rewrite IH. reflexivity.
  - rewrite map_map. reflexivity.
Qed.

End Builder.

(** ** Properties of the service *)

Section Service.

Variable Request : Type.

Lemma get_building_map_spec (self : Server) (request : Request)
    (response : Response) :
  map_msg (fst (get_building_map self request response)) = map_msg self /\
  map_dir (fst (get_building_map self request response)) = map_dir self /\
  building_map (snd (get_building_map self request response)) = map_msg self.
Proof. repeat split. Qed.

Lemma serve_spec (self : Server) (calls : list (Request * Response)) :
  map_msg (fst (serve self calls)) = map_msg self /\
  snd (serve self calls)
    = map (fun _ => {| building_map := map_msg self |}) calls.
Proof.
  revert self. induction calls as [|[request response] rest IH]; intros self.
  - split; reflexivity.
  - simpl.
    destruct (IH {| map_dir := map_dir self; map_msg := map_msg self;
                    logged := logged self ++ ["get_building_map()"] |})
      as (IH1 & IH2).
    destruct (serve _ rest) as [self2 rs]. simpl in *.
    split; [exact IH1|]. rewrite IH2. reflexivity.
Qed.

(** C8: after [N >= 2] calls of the service in a row, there are [N]
    responses, each equal to the first and carrying the node's
    [map_msg]; the node's [map_msg] is what it was before the calls; and
    other requests and blank responses, as many, give the same
    responses. *)
Theorem C8_fetch_idempotent (self : Server) (calls : list (Request * Response)) :
  (2 <= length calls)%nat ->
  length (snd (serve self calls)) = length calls /\
  map_msg (fst (serve self calls)) = map_msg self /\
  (exists first,
     snd (serve self calls) !! 0%nat = Some first /\
     building_map first = map_msg self /\
     forall i r, snd (serve self calls) !! i = Some r -> r = first) /\
  (forall calls' : list (Request * Response),
     length calls' = length calls ->
     snd (serve self calls') = snd (serve self calls)).
Proof.
  intros HN. destruct (serve_spec self calls) as (Hs & Hr).
  split; [|split; [exact Hs|split]].
  - rewrite Hr. apply length_map.
  - exists {| building_map := map_msg self |}. rewrite Hr.
    split; [|split; [reflexivity|]].
    + destruct calls; [simpl in HN; lia|reflexivity].
    + intros i r Hi. apply list_elem_of_lookup_2, list_elem_of_In in Hi.
      apply in_map_iff in Hi as (c & <- & _). reflexivity.
  - intros calls' Hlen. destruct (serve_spec self calls') as (_ & Hr').
    rewrite Hr, Hr'. clear -Hlen. revert calls' Hlen.
    induction calls as [|c cs IH]; intros [|c' cs'] Hlen;
      simpl in *; try discriminate; [reflexivity|].
    f_equal. apply IH. lia.
Qed.

End Service.

(** ** The properties on the example building *)

Example scenario_of_section_8 :
  building_map_msg Demo.env "/maps"
    (Model.Building.mk "demo" [("L1", Demo.L1)] [])
  = Ok (Msg.BuildingMap.mk "demo" [Demo.L1_msg] []) /\
  map Msg.Door.door_type (Msg.Level.doors Demo.L1_msg)
  = [Msg.Door.DOOR_TYPE_SINGLE_SWING] /\
  map Msg.Graph.name (Msg.Level.nav_graphs Demo.L1_msg) = ["0"] /\
  map (fun g => map Msg.GraphEdge.edge_type (Msg.Graph.edges g))
      (Msg.Level.nav_graphs Demo.L1_msg)
  = [[Msg.GraphEdge.EDGE_TYPE_BIDIRECTIONAL]].
Proof. repeat split; vm_compute; reflexivity. Qed.

(** C1, refuted as stated: the level [L2] has the floor plan
    [floor1.PNG]; its one image has the encoding [PNG], which is not the
    lower-case [png]. *)
Lemma C1_encoding_not_lowercased :
  exists msg img,
    level_msg Demo.env "/maps" Demo.L2 = Ok msg /\
    Model.Level.drawing_name Demo.L2 = Some "floor1.PNG" /\
    after_last_dot "floor1.PNG" "PNG" /\
    Msg.Level.images msg = [img] /\
    Msg.AffineImage.encoding img = "PNG" /\
    lower "PNG" = "png" /\
    Msg.AffineImage.encoding img <> lower "PNG".
Proof.
  exists Demo.L2_msg, (image_of Demo.L2 "PNG" [x89; x50; x4e; x47]).
  repeat split; try (vm_compute; reflexivity).
  - exists "floor1". split; reflexivity.
  - vm_compute. discriminate.
Qed.

Lemma C1_encoding_is_literal_suffix_witness :
  Model.Level.drawing_name Demo.L2 = Some "floor1.PNG" /\
  after_last_dot "floor1.PNG" "PNG" /\
  read_file Demo.env (path_join "/maps" "floor1.PNG")
    = Ok [x89; x50; x4e; x47] /\
  level_doors Demo.env Demo.L2 = Ok Demo.L2_door_msgs /\
  exists msg,
    level_msg Demo.env "/maps" Demo.L2 = Ok msg /\
    Msg.Level.images msg
      = [image_of Demo.L2 "PNG" [x89; x50; x4e; x47]] /\
    Msg.AffineImage.encoding
      (image_of Demo.L2 "PNG" [x89; x50; x4e; x47]) = "PNG".
Proof.
  assert (after_last_dot "floor1.PNG" "PNG") as H
    by (exists "floor1"; split; reflexivity).
  split; [reflexivity|]. split; [exact H|].
  split; [reflexivity|]. split; [reflexivity|].
  apply (C1_encoding_is_literal_suffix Demo.env "/maps" Demo.L2
           "floor1.PNG" "PNG" [x89; x50; x4e; x47] Demo.L2_door_msgs);
    [reflexivity | exact H | reflexivity | reflexivity].
Defined.

Lemma C2_door_index_out_of_range_fails_witness :
  In ("L4", Demo.L4) (Model.Building.levels Demo.building_past_end) /\
  In Demo.door_past_end (Model.Level.doors Demo.L4) /\
  Z.of_nat (length (Model.Level.vertices Demo.L4))
    <= Model.Door.end_idx Demo.door_past_end /\
  raises (door_msg Demo.env Demo.L4 Demo.door_past_end) /\
  raises (level_msg Demo.env "/maps" Demo.L4) /\
  raises (building_map_msg Demo.env "/maps" Demo.building_past_end) /\
  forall msg,
    building_map_msg Demo.env "/maps" Demo.building_past_end <> Ok msg.
Proof.
  split; [right; left; reflexivity|].
  split; [left; reflexivity|].
  split; [simpl; lia|].
  apply (C2_door_index_out_of_range_fails Demo.env "/maps"
           Demo.building_past_end "L4" Demo.L4 Demo.door_past_end);
    [right; left; reflexivity | left; reflexivity | right; simpl; lia].
Defined.

Lemma doors_of_L2_translate :
  Forall (door_translates Demo.env Demo.L2) (Model.Level.doors Demo.L2).
Proof.
  constructor; [|constructor]. unfold door_translates. cbv zeta.
  split; [|split; [simpl; lia|split; [simpl; lia|]]].
  - intros k Hk. simpl in Hk.
    destruct Hk as [<-|[<-|[<-|[<-|[]]]]]; eexists; reflexivity.
  - exists (Demo.param (VFloat 90%float)), 90%float. split; reflexivity.
Qed.

Lemma C3_door_type_mapping_witness :
  level_images Demo.env "/maps" Demo.L2
    = Ok [image_of Demo.L2 "PNG" [x89; x50; x4e; x47]] /\
  Forall (door_translates Demo.env Demo.L2) (Model.Level.doors Demo.L2) /\
  Model.Door.params Demo.door_foo !! "type" = Some (Demo.param (VStr "foo")) /\
  level_msg Demo.env "/maps" Demo.L2 = Ok Demo.L2_msg /\
  map Msg.Door.door_type (Msg.Level.doors Demo.L2_msg)
    = [Msg.Door.DOOR_TYPE_UNDEFINED] /\
  exists msg,
    level_msg Demo.env "/maps" Demo.L2 = Ok msg /\
    Forall2 (fun door d =>
               exists p_type,
                 Model.Door.params door !! "type" = Some p_type /\
                 door_type_table (Model.ParamValue.value p_type)
                                 (Msg.Door.door_type d))
            (Model.Level.doors Demo.L2) (Msg.Level.doors msg).
Proof.
  split; [reflexivity|]. split; [exact doors_of_L2_translate|].
  split; [reflexivity|]. split; [reflexivity|]. split; [reflexivity|].
  apply (C3_door_type_mapping Demo.env "/maps" Demo.L2
           [image_of Demo.L2 "PNG" [x89; x50; x4e; x47]]);
    [reflexivity|exact doors_of_L2_translate].
Defined.

Lemma C4_nav_graphs_by_index_witness :
  level_msg Demo.env "/maps" Demo.L1 = Ok Demo.L1_msg /\
  (forall gm, In gm (Msg.Level.nav_graphs Demo.L1_msg) ->
              Msg.Graph.name gm <> str 3) /\
  filter (fun gm => Msg.Graph.name gm = str 0)
         (Msg.Level.nav_graphs Demo.L1_msg)
  = [graph_of 0 (Demo.one_lane 0 false)].
Proof.
  split; [reflexivity|].
  destruct (C4_nav_graphs_by_index Demo.env "/maps" Demo.L1 Demo.L1_msg)
    as (Hk & _ & _); [reflexivity|].
  split.
  - apply (proj1 (Hk 3 ltac:(lia))). reflexivity.
  - apply (proj2 (Hk 0 ltac:(lia))). simpl. discriminate.
Defined.

Lemma C5_image_entries_witness :
  level_msg Demo.env "/maps" Demo.L1 = Ok Demo.L1_msg /\
  level_msg Demo.env "/maps" Demo.L2 = Ok Demo.L2_msg /\
  Msg.Level.images Demo.L1_msg = [] /\
  length (Msg.Level.images Demo.L2_msg) = 1%nat.
Proof.
  split; [reflexivity|]. split; [reflexivity|]. split.
  - apply (proj1 (C5_image_entries Demo.env "/maps" Demo.L1 Demo.L1_msg
                    eq_refl)).
    left. reflexivity.
  - apply (proj2 (C5_image_entries Demo.env "/maps" Demo.L2 Demo.L2_msg
                    eq_refl) "floor1.PNG"); [reflexivity|discriminate].
Defined.

Lemma C6_order_preserved_witness :
  building_map_msg Demo.env "/maps" Demo.building = Ok Demo.building_msg /\
  map Msg.Level.name (Msg.BuildingMap.levels Demo.building_msg)
    = map (fun item => Model.Level.name (snd item))
          (Model.Building.levels Demo.building) /\
  map Msg.Lift.name (Msg.BuildingMap.lifts Demo.building_msg)
    = map (fun item => Model.Lift.name (snd item))
          (Model.Building.lifts Demo.building).
Proof.
  split; [reflexivity|].
  apply (C6_order_preserved Demo.env "/maps" Demo.building Demo.building_msg).
  reflexivity.
Defined.


Lemma C8_fetch_idempotent_witness :
  (2 <= length Demo.two_calls)%nat /\
  length (snd (serve Demo.node Demo.two_calls)) = length Demo.two_calls /\
  map_msg (fst (serve Demo.node Demo.two_calls)) = map_msg Demo.node /\
  (exists first,
     snd (serve Demo.node Demo.two_calls) !! 0%nat = Some first /\
     building_map first = map_msg Demo.node /\
     forall i r, snd (serve Demo.node Demo.two_calls) !! i = Some r ->
                 r = first) /\
  (forall calls' : list (unit * Response),
     length calls' = length Demo.two_calls ->
     snd (serve Demo.node calls') = snd (serve Demo.node Demo.two_calls)).
Proof.
  split; [simpl; lia|].
  apply (C8_fetch_idempotent unit Demo.node Demo.two_calls). simpl. lia.
Defined.

Lemma C9_encoding_without_dot_witness :
  Model.Level.drawing_name Demo.L3 = Some "plan" /\
  "plan" <> "" /\
  has_char "." "plan" = false /\
  read_file Demo.env (path_join "/maps" "plan") = Ok [x42; x4d] /\
  level_doors Demo.env Demo.L3 = Ok [] /\
  image_encoding "plan" = Ok "plan" /\
  exists msg,
    level_msg Demo.env "/maps" Demo.L3 = Ok msg /\
    Msg.Level.images msg = [image_of Demo.L3 "plan" [x42; x4d]] /\
    Msg.AffineImage.encoding (image_of Demo.L3 "plan" [x42; x4d]) = "plan".
Proof.
  split; [reflexivity|]. split; [discriminate|]. split; [reflexivity|].
  split; [reflexivity|]. split; [reflexivity|].
  apply (C9_encoding_without_dot Demo.env "/maps" Demo.L3 "plan"
           [x42; x4d] []);
    [reflexivity | discriminate | reflexivity | reflexivity | reflexivity].
Defined.

Lemma C10_negative_index_accepted_witness :
  1 <= Z.of_nat (length (Model.Level.vertices Demo.L2)) /\
  Model.Door.start_idx Demo.door_foo = -1 /\
  level_images Demo.env "/maps" Demo.L2
    = Ok [image_of Demo.L2 "PNG" [x89; x50; x4e; x47]] /\
  Forall (door_translates Demo.env Demo.L2) (Model.Level.doors Demo.L2) /\
  level_msg Demo.env "/maps" Demo.L2 = Ok Demo.L2_msg /\
  map Msg.Door.v1_x (Msg.Level.doors Demo.L2_msg) = [1%float] /\
  exists msg,
    level_msg Demo.env "/maps" Demo.L2 = Ok msg /\
    Forall2 (fun door d =>
               (Model.Door.start_idx door < 0 ->
                exists v,
                  Model.Level.vertices Demo.L2
                    !! Z.to_nat (Z.of_nat (length (Model.Level.vertices Demo.L2))
                                 + Model.Door.start_idx door) = Some v /\
                  Msg.Door.v1_x d = Model.Vertex.x v /\
                  Msg.Door.v1_y d = Model.Vertex.y v) /\
               (Model.Door.end_idx door < 0 ->
                exists v,
                  Model.Level.vertices Demo.L2
                    !! Z.to_nat (Z.of_nat (length (Model.Level.vertices Demo.L2))
                                 + Model.Door.end_idx door) = Some v /\
                  Msg.Door.v2_x d = Model.Vertex.x v /\
                  Msg.Door.v2_y d = Model.Vertex.y v))
            (Model.Level.doors Demo.L2) (Msg.Level.doors msg).
Proof.
  split; [simpl; lia|]. split; [reflexivity|]. split; [reflexivity|].
  split; [exact doors_of_L2_translate|].
  split; [reflexivity|]. split; [reflexivity|].
  apply (C10_negative_index_accepted Demo.env "/maps" Demo.L2
           [image_of Demo.L2 "PNG" [x89; x50; x4e; x47]]);
    [simpl; lia|reflexivity|exact doors_of_L2_translate].
Defined.

(** ** Further properties of the builder *)

Section BuilderMore.

Variable env : Env.

Lemma last_dot_decomposition s :
  has_char "." s = true ->
  exists stem suffix,
    s = stem +:+ String "." suffix /\ has_char "." suffix = false.
Proof.
  induction s as [|a s IH]; simpl; [discriminate|].
  destruct (has_char "." s) eqn:E.
  - intros _. destruct (IH eq_refl) as (stem & suffix & -> & Hs).
    exists (String a stem), suffix. split; [reflexivity|exact Hs].
  - rewrite orb_false_r. intros Ha. apply Ascii.eqb_eq in Ha as ->.
    exists "", s. split; [reflexivity|exact E].
Qed.

(** X1: [image_filename.split('.')[-1]] never raises; the encoding it
    gives has no [.], and the filename is a stem followed by the
    encoding, where the stem is empty or ends with [.]. *)
Theorem image_encoding_dot_free_suffix filename :
  exists stem encoding,
    image_encoding filename = Ok encoding /\
    filename = stem +:+ encoding /\
    has_char "." encoding = false /\
    (stem = "" \/ exists stem', stem = stem' +:+ ".").
Proof.
  destruct (has_char "." filename) eqn:E.
  - destruct (last_dot_decomposition _ E) as (stem & suffix & -> & Hs).
    exists (stem +:+ "."), suffix.
    split; [apply image_encoding_suffix, Hs|].
    split; [|split; [exact Hs|right; exists stem; reflexivity]].
    clear. induction stem as [|a stem IH]; [reflexivity|].
    apply (f_equal (String a)) in IH. exact IH.
  - exists "", filename.
    split; [apply image_encoding_no_dot, E|].
    split; [reflexivity|]. split; [exact E|left; reflexivity].
Qed.

Lemma image_encoding_total filename :
  exists encoding, image_encoding filename = Ok encoding.
Proof.
  destruct (has_char "." filename) eqn:E.
  - destruct (last_dot_decomposition _ E) as (stem & suffix & -> & Hs).
    exists suffix. apply image_encoding_suffix, Hs.
  - exists filename. apply image_encoding_no_dot, E.
Qed.

Lemma level_images_unreadable map_dir level filename e :
  Model.Level.drawing_name level = Some filename ->
  filename <> "" ->
  read_file env (path_join map_dir filename) = Raise e ->
  level_images env map_dir level = Raise e.
Proof.
  intros Hn Hne Hr. unfold level_images.
  rewrite Hn, (truthy_name_nonempty _ Hne).
  destruct (image_encoding_total filename) as (enc & ->). simpl.
  rewrite Hr. reflexivity.
Qed.

(** X2: when the floor plan of a level cannot be read, [level_msg]
    raises the very exception of the read, before any door is looked
    at, and every building with that level fails to build. *)
Theorem unreadable_image_fails map_dir level filename e :
  Model.Level.drawing_name level = Some filename ->
  filename <> "" ->
  read_file env (path_join map_dir filename) = Raise e ->
  level_msg env map_dir level = Raise e /\
  forall building key,
    In (key, level) (Model.Building.levels building) ->
    raises (building_map_msg env map_dir building).
Proof.
  intros Hn Hne Hr.
  assert (level_msg env map_dir level = Raise e) as H.
  { unfold level_msg.
    rewrite (level_images_unreadable _ _ _ _ Hn Hne Hr). reflexivity. }
  split; [exact H|].
  intros building key Hin. eapply building_map_msg_raises; [exact Hin|].
  exists e. exact H.
Qed.

Lemma path_join_absolute a b :
  startswith_char b "/" = true -> path_join a b = b.
Proof. intros H. unfold path_join. rewrite H. reflexivity. Qed.

(** X3: a floor plan given by an absolute path is read from that path,
    so the level message does not depend on the directory of the map. *)
Theorem absolute_image_ignores_map_dir map_dir map_dir' level filename :
  Model.Level.drawing_name level = Some filename ->
  startswith_char filename "/" = true ->
  path_join map_dir filename = filename /\
  level_msg env map_dir level = level_msg env map_dir' level.
Proof.
  intros Hn Hs. split; [apply path_join_absolute, Hs|].
  unfold level_msg, level_images. rewrite Hn.
  destruct (truthy_name (Some filename)) as [f|] eqn:E; [|reflexivity].
  assert (f = filename) as ->
    by (destruct filename; simpl in E; congruence).
  rewrite !(path_join_absolute _ _ Hs). reflexivity.
Qed.

(** X4: a level without a floor plan is translated without any file
    being read: its message is the same in every directory and with
    every file system. *)
Theorem no_floor_plan_no_file_read map_dir level :
  truthy_name (Model.Level.drawing_name level) = None ->
  forall read_file' map_dir',
    level_msg (mkEnv read_file' (int_to_float env) (str_to_float env))
              map_dir' level
    = level_msg env map_dir level.
Proof.
  intros Hn read_file' map_dir'. unfold level_msg, level_images.
  rewrite Hn. simpl. unfold level_doors.
  destruct (Z.of_nat (length (Model.Level.doors level)) =? 0); [reflexivity|].
  assert (forall door, door_msg (mkEnv read_file' (int_to_float env)
                                       (str_to_float env)) level door
                       = door_msg env level door) as Hd by reflexivity.
  assert (for_each (door_msg (mkEnv read_file' (int_to_float env)
                                    (str_to_float env)) level)
                   (Model.Level.doors level)
          = for_each (door_msg env level) (Model.Level.doors level)) as ->.
  { induction (Model.Level.doors level) as [|d ds IH]; simpl; [reflexivity|].
    rewrite Hd, IH. reflexivity. }
  reflexivity.
Qed.

(** *** Doors *)

Lemma py_getitem_lt {A} (xs : list A) (i : Z) :
  i < - Z.of_nat (length xs) -> py_getitem xs i = Raise IndexError.
Proof.
  intros Hi. unfold py_getitem. cbv zeta.
  destruct (Z.ltb_spec i 0); [|lia].
  destruct (Z.ltb_spec (i + Z.of_nat (length xs)) 0); [|lia].
  reflexivity.
Qed.

Lemma py_getitem_cases {A} (xs : list A) (i : Z) :
  (- Z.of_nat (length xs) <= i < Z.of_nat (length xs) /\
   exists x, py_getitem xs i = Ok x) \/
  (~ - Z.of_nat (length xs) <= i < Z.of_nat (length xs) /\
   py_getitem xs i = Raise IndexError).
Proof.
  destruct (Z_lt_le_dec i (- Z.of_nat (length xs))) as [Hlo|Hlo].
  - right. split; [lia|apply py_getitem_lt, Hlo].
  - destruct (Z_lt_le_dec i (Z.of_nat (length xs))) as [Hhi|Hhi].
    + left. split; [lia|apply py_getitem_in_range; lia].
    + right. split; [lia|apply py_getitem_ge, Hhi].
Qed.

Lemma dict_getitem_cases {V} (d : gmap string V) k :
  (exists v, d !! k = Some v /\ dict_getitem d k = Ok v) \/
  (d !! k = None /\ dict_getitem d k = Raise (KeyError k)).
Proof. unfold dict_getitem. destruct (d !! k); eauto. Qed.

(** X5: a door is translated exactly when its four parameters are
    present, both endpoint indices lie in [-n, n) for the [n] vertices of
    the level, and [float] accepts [motion_degrees]. *)
Theorem door_msg_succeeds_iff level door :
  let n := Z.of_nat (length (Model.Level.vertices level)) in
  (exists d, door_msg env level door = Ok d) <->
  (forall k, In k required_params ->
             exists p, Model.Door.params door !! k = Some p) /\
  - n <= Model.Door.start_idx door < n /\
  - n <= Model.Door.end_idx door < n /\
  (exists p mr, Model.Door.params door !! "motion_degrees" = Some p /\
                py_float env (Model.ParamValue.value p) = Ok mr).
Proof.
  intros n. split.
  - intros (d & H).
    apply door_msg_inv in H
      as (pn & pg & pd & pt & v1 & v2 & mr & Hn & Hg & Hd & Ht & H1 & H2 & Hf & _).
    split; [|split; [|split]].
    + intros k Hk. simpl in Hk.
      destruct Hk as [<-|[<-|[<-|[<-|[]]]]]; eauto.
    + destruct (py_getitem_cases (Model.Level.vertices level)
                                 (Model.Door.start_idx door))
        as [(Hr & _)|(_ & He)]; [exact Hr|congruence].
    + destruct (py_getitem_cases (Model.Level.vertices level)
                                 (Model.Door.end_idx door))
        as [(Hr & _)|(_ & He)]; [exact Hr|congruence].
    + eauto.
  - intros (Hk & H1 & H2 & (pg & mr & Hg & Hf)).
    destruct (Hk "name") as (pn & Hn); [simpl; auto|].
    destruct (Hk "motion_direction") as (pd & Hd); [simpl; auto|].
    destruct (Hk "type") as (pt & Ht); [simpl; auto|].
    destruct (py_getitem_in_range _ _ H1) as (v1 & Hv1).
    destruct (py_getitem_in_range _ _ H2) as (v2 & Hv2).
    eexists. eapply door_msg_ok; eauto.
Qed.

(** X6: the exception of a door is that of the first statement of the
    loop body that fails, in the order: [name], the start vertex, the
    end vertex, [motion_degrees], its conversion by [float],
    [motion_direction], [type]. *)
Theorem door_msg_first_error level door e :
  let n := Z.of_nat (length (Model.Level.vertices level)) in
  let params := Model.Door.params door in
  door_msg env level door = Raise e ->
  (params !! "name" = None /\ e = KeyError "name") \/
  (params !! "name" <> None /\
   ((~ - n <= Model.Door.start_idx door < n /\ e = IndexError) \/
    (- n <= Model.Door.start_idx door < n /\
     ((~ - n <= Model.Door.end_idx door < n /\ e = IndexError) \/
      (- n <= Model.Door.end_idx door < n /\
       ((params !! "motion_degrees" = None /\
         e = KeyError "motion_degrees") \/
        (exists p, params !! "motion_degrees" = Some p /\
           (py_float env (Model.ParamValue.value p) = Raise e \/
            ((exists mr, py_float env (Model.ParamValue.value p) = Ok mr) /\
             ((params !! "motion_direction" = None /\
               e = KeyError "motion_direction") \/
              (params !! "motion_direction" <> None /\
               params !! "type" = None /\
               e = KeyError "type"))))))))))).
Proof.
  intros n params H. unfold door_msg in H. fold params in H.
  destruct (dict_getitem_cases params "name") as [(pn & Hn & En)|(Hn & En)];
    rewrite En in H; simpl in H; [|left; split; congruence].
  right. split; [congruence|].
  destruct (py_getitem_cases (Model.Level.vertices level)
                             (Model.Door.start_idx door))
    as [(H1 & v1 & E1)|(H1 & E1)];
    rewrite !E1 in H; simpl in H; [|left; split; [exact H1|congruence]].
  right. split; [exact H1|].
  destruct (py_getitem_cases (Model.Level.vertices level)
                             (Model.Door.end_idx door))
    as [(H2 & v2 & E2)|(H2 & E2)];
    rewrite !E2 in H; simpl in H; [|left; split; [exact H2|congruence]].
  right. split; [exact H2|].
  destruct (dict_getitem_cases params "motion_degrees")
    as [(pg & Hg & Eg)|(Hg & Eg)];
    rewrite Eg in H; simpl in H; [|left; split; congruence].
  right. exists pg. split; [exact Hg|].
  destruct (py_float env (Model.ParamValue.value pg)) as [mr|e'] eqn:Ef;
    simpl in H; [|left; congruence].
  right. split; [eauto|].
  destruct (dict_getitem_cases params "motion_direction")
    as [(pd & Hd & Ed)|(Hd & Ed)];
    rewrite Ed in H; simpl in H; [|left; split; congruence].
  right. split; [congruence|].
  destruct (dict_getitem_cases params "type") as [(pt & Ht & Et)|(Ht & Et)];
    rewrite Et in H; simpl in H; [discriminate|split; congruence].
Qed.

(** X7: the endpoints of a translated door are the coordinates of the
    vertices its indices select; for an index [i >= 0] that is the
    vertex at position [i]. *)
Theorem door_coordinates_from_vertices level door d :
  door_msg env level door = Ok d ->
  exists v1 v2,
    py_getitem (Model.Level.vertices level) (Model.Door.start_idx door) = Ok v1 /\
    py_getitem (Model.Level.vertices level) (Model.Door.end_idx door) = Ok v2 /\
    Msg.Door.v1_x d = Model.Vertex.x v1 /\
    Msg.Door.v1_y d = Model.Vertex.y v1 /\
    Msg.Door.v2_x d = Model.Vertex.x v2 /\
    Msg.Door.v2_y d = Model.Vertex.y v2 /\
    (0 <= Model.Door.start_idx door ->
     Model.Level.vertices level !! Z.to_nat (Model.Door.start_idx door)
     = Some v1) /\
    (0 <= Model.Door.end_idx door ->
     Model.Level.vertices level !! Z.to_nat (Model.Door.end_idx door)
     = Some v2).
Proof.
  intros H.
  apply door_msg_inv in H
    as (pn & pg & pd & pt & v1 & v2 & mr & _ & _ & _ & _ & H1 & H2 & _ & ->).
  exists v1, v2. repeat split; try assumption.
  - intros Hi.
    destruct (py_getitem_cases (Model.Level.vertices level)
                               (Model.Door.start_idx door))
      as [(Hr & _)|(_ & He)]; [|congruence].
    destruct (Model.Level.vertices level
                !! Z.to_nat (Model.Door.start_idx door)) as [x|] eqn:E.
    + rewrite (py_getitem_nonneg _ _ _ Hi E) in H1. congruence.
    + apply lookup_ge_None in E. lia.
  - intros Hi.
    destruct (py_getitem_cases (Model.Level.vertices level)
                               (Model.Door.end_idx door))
      as [(Hr & _)|(_ & He)]; [|congruence].
    destruct (Model.Level.vertices level
                !! Z.to_nat (Model.Door.end_idx door)) as [x|] eqn:E.
    + rewrite (py_getitem_nonneg _ _ _ Hi E) in H2. congruence.
    + apply lookup_ge_None in E. lia.
Qed.

(** X8: each category other than undefined comes from one source string
    only, and undefined from everything else. *)
Theorem door_type_of_inverse (v : PyValue) :
  (door_type_of v = Msg.Door.DOOR_TYPE_SINGLE_SLIDING <-> v = VStr "sliding") /\
  (door_type_of v = Msg.Door.DOOR_TYPE_SINGLE_SWING <-> v = VStr "hinged") /\
  (door_type_of v = Msg.Door.DOOR_TYPE_DOUBLE_SLIDING
   <-> v = VStr "double_sliding") /\
  (door_type_of v = Msg.Door.DOOR_TYPE_DOUBLE_SWING
   <-> v = VStr "double_hinged") /\
  (door_type_of v = Msg.Door.DOOR_TYPE_UNDEFINED
   <-> v <> VStr "sliding" /\ v <> VStr "hinged" /\
       v <> VStr "double_sliding" /\ v <> VStr "double_hinged").
Proof.
  destruct v as [s|z|f|b];
    try (repeat split; intros; try discriminate; try tauto;
         repeat match goal with H : _ /\ _ |- _ => destruct H end;
         discriminate).
  unfold door_type_of, py_eq_str.
  destruct (String.eqb_spec s "sliding") as [->|H1];
    [repeat split; intros; try discriminate; try reflexivity; tauto|].
  destruct (String.eqb_spec s "hinged") as [->|H2];
    [repeat split; intros; try discriminate; try reflexivity; tauto|].
  destruct (String.eqb_spec s "double_sliding") as [->|H3];
    [repeat split; intros; try discriminate; try reflexivity; tauto|].
  destruct (String.eqb_spec s "double_hinged") as [->|H4];
    [repeat split; intros; try discriminate; try reflexivity; tauto|].
  repeat split; intros; try discriminate; try congruence.
Qed.

(** *** Buildings *)

Lemma for_each_raise_iff {A B} (f : A -> result B) xs e :
  for_each f xs = Raise e <->
  exists before x after,
    xs = (before ++ x :: after)%list /\
    Forall (fun y => exists b, f y = Ok b) before /\
    f x = Raise e.
Proof.
  induction xs as [|x xs IH]; simpl.
  - split; [discriminate|].
    intros (before & y & after & H & _). destruct before; discriminate.
  - split.
    + destruct (f x) as [b|e'] eqn:Ex; simpl.
      * destruct (for_each f xs) as [ys|e''] eqn:Exs; simpl; [discriminate|].
        intros H. injection H as ->.
        destruct (proj1 IH eq_refl) as (before & y & after & -> & Hb & Hy).
        exists (x :: before), y, after.
        split; [reflexivity|]. split; [constructor; eauto|exact Hy].
      * intros H. injection H as ->.
        exists [], x, xs. split; [reflexivity|]. split; [constructor|exact Ex].
    + intros (before & y & after & Hxs & Hb & Hy).
      destruct before as [|x' before]; simpl in Hxs; injection Hxs as -> ->.
      * rewrite Hy. reflexivity.
      * apply Forall_cons in Hb as ((b & Hx) & Hb). rewrite Hx. simpl.
        rewrite (proj2 IH); [reflexivity|]. eauto 8.
Qed.

Lemma for_each_ok_iff {A B} (f : A -> result B) xs :
  (exists ys, for_each f xs = Ok ys) <->
  Forall (fun x => exists y, f x = Ok y) xs.
Proof.
  split.
  - intros (ys & H). apply for_each_ok in H.
    induction H; constructor; eauto.
  - induction 1 as [|x xs (y & Hy) _ (ys & IH)]; simpl; [eauto|].
    rewrite Hy, IH. simpl. eauto.
Qed.

(** X9: a build fails exactly when some level fails, and then with the
    exception of the first level, in the order of [building.levels],
    that fails; the levels after it and the lifts are not looked at. *)
Theorem building_fails_at_first_failing_level map_dir building e :
  building_map_msg env map_dir building = Raise e <->
  exists before key level after,
    Model.Building.levels building
      = (before ++ (key, level) :: after)%list /\
    Forall (fun item => exists lm, level_msg env map_dir (snd item) = Ok lm)
           before /\
    level_msg env map_dir level = Raise e.
Proof.
  unfold building_map_msg. split.
  - destruct (for_each _ (Model.Building.levels building)) as [ls|e'] eqn:E;
      simpl; [discriminate|].
    intros H. injection H as ->.
    apply for_each_raise_iff in E
      as (before & [key level] & after & Hl & Hb & Hx).
    exists before, key, level, after. auto.
  - intros (before & key & level & after & Hl & Hb & Hx).
    assert (for_each (fun item => level_msg env map_dir (snd item))
                     (Model.Building.levels building) = Raise e) as ->.
    { apply for_each_raise_iff.
      exists before, (key, level), after. auto. }
    reflexivity.
Qed.

(** X10: a building is translated exactly when each of its levels is;
    its lifts never make the build fail. The message then has the name
    of the building, one level message per level and one lift message
    per lift. *)
Theorem building_builds_iff_levels_build map_dir building :
  ((exists msg, building_map_msg env map_dir building = Ok msg) <->
   Forall (fun item => exists lm, level_msg env map_dir (snd item) = Ok lm)
          (Model.Building.levels building)) /\
  (forall msg, building_map_msg env map_dir building = Ok msg ->
     Msg.BuildingMap.name msg = Model.Building.name building /\
     length (Msg.BuildingMap.levels msg)
       = length (Model.Building.levels building) /\
     Msg.BuildingMap.lifts msg
       = map (fun item => lift_msg (snd item)) (Model.Building.lifts building)).
Proof.
  split.
  - rewrite <- for_each_ok_iff. unfold building_map_msg. split.
    + intros (msg & H). apply bind_ok in H as (ls & Hl & _). eauto.
    + intros (ls & ->). simpl. eauto.
  - intros msg H. apply building_map_msg_inv in H as (Hl & Hf & Hn).
    split; [exact Hn|]. split; [|exact Hf].
    symmetry. eapply Forall2_length, Hl.
Qed.

(** *** Navigation graphs *)

Lemma level_nav_graphs_map level ks :
  flat_map (nav_graph_step level) ks
  = map (fun i => graph_of i (Model.Level.generate_nav_graph level i false))
        (filter (fun i => Model.NavGraph.lanes
                            (Model.Level.generate_nav_graph level i false)
                          <> [])
                ks).
Proof.
  induction ks as [|i ks IH]; simpl; [reflexivity|].
  rewrite IH.
  destruct (nav_graph_step_cases level i) as [(Hl & ->)|(Hl & ->)].
  - rewrite filter_cons_False by (intros H; apply H, Hl). reflexivity.
  - rewrite filter_cons_True by exact Hl. reflexivity.
Qed.

(** X11: the navigation graphs of a translated level are those of the
    indices from 0 to 8 whose graph has a lane, in increasing order of
    the index: at most nine, with pairwise different names, and none
    without an edge. *)
Theorem nav_graphs_shape map_dir level msg :
  level_msg env map_dir level = Ok msg ->
  Msg.Level.nav_graphs msg
  = map (fun i => graph_of i (Model.Level.generate_nav_graph level i false))
        (filter (fun i => Model.NavGraph.lanes
                            (Model.Level.generate_nav_graph level i false)
                          <> [])
                (range 0 9)) /\
  (length (Msg.Level.nav_graphs msg) <= 9)%nat /\
  NoDup (map Msg.Graph.name (Msg.Level.nav_graphs msg)) /\
  (forall g, In g (Msg.Level.nav_graphs msg) ->
     Msg.Graph.edges g <> [] /\
     exists i, 0 <= i <= 8 /\ Msg.Graph.name g = str i /\
       length (Msg.Graph.edges g)
       = length (Model.NavGraph.lanes
                   (Model.Level.generate_nav_graph level i false)) /\
       length (Msg.Graph.vertices g)
       = length (Model.NavGraph.vertices
                   (Model.Level.generate_nav_graph level i false))).
Proof.
  intros H. apply level_msg_inv in H as (_ & _ & -> & _).
  unfold level_nav_graphs. rewrite level_nav_graphs_map.
  set (keep := filter _ (range 0 9)).
  assert (forall i, i ∈ keep ->
            0 <= i <= 8 /\
            Model.NavGraph.lanes (Model.Level.generate_nav_graph level i false)
            <> []) as Hkeep.
  { intros i Hi. apply list_elem_of_filter in Hi as (Hl & Hi).
    apply elem_of_seqZ in Hi. split; [lia|exact Hl]. }
  assert (NoDup keep) as Hnd by (apply NoDup_filter, NoDup_seqZ).
  split; [reflexivity|]. split; [|split].
  - rewrite length_map. etransitivity; [apply length_filter|].
    unfold range. rewrite length_seqZ. lia.
  - rewrite map_map. simpl.
    clear -Hkeep Hnd. induction keep as [|i ks IH]; simpl; [constructor|].
    apply NoDup_cons in Hnd as (Hi & Hnd). apply NoDup_cons. split.
    + intros Hin. apply list_elem_of_In, in_map_iff in Hin as (k & Hk & Hin).
      apply list_elem_of_In in Hin.
      apply Hi. rewrite <- (str_digit_inj k i); [exact Hin| | |exact Hk].
      * apply Hkeep. right. exact Hin.
      * apply Hkeep. left.
    + apply IH; [|exact Hnd]. intros k Hk. apply Hkeep. right. exact Hk.
  - intros g Hg. apply in_map_iff in Hg as (i & <- & Hi).
    apply list_elem_of_In, Hkeep in Hi as (Hi & Hl). split.
    + simpl. destruct (Model.NavGraph.lanes _); [congruence|discriminate].
    + exists i. split; [exact Hi|]. split; [reflexivity|].
      simpl. rewrite !length_map. split; reflexivity.
Qed.

End BuilderMore.

(** ** Further properties of the service *)

Section ServiceMore.

Variable Request : Type.

(** X12: each call of the service logs one line and nothing else
    changes: after the calls the log is the old log followed by one
    [get_building_map()] per call, and [map_dir] is as before. *)
Theorem serve_logs_each_call (self : Server)
    (calls : list (Request * Response)) :
  logged (fst (serve self calls))
    = (logged self ++ replicate (length calls) "get_building_map()")%list /\
  map_dir (fst (serve self calls)) = map_dir self.
Proof.
  revert self. induction calls as [|[request response] rest IH]; intros self.
  - simpl. rewrite app_nil_r. split; reflexivity.
  - simpl.
    destruct (IH {| map_dir := map_dir self; map_msg := map_msg self;
                    logged := logged self ++ ["get_building_map()"] |})
      as (IH1 & IH2).
    destruct (serve _ rest) as [self2 rs]. simpl in *.
    rewrite IH1, IH2, <- app_assoc. split; reflexivity.
Qed.

End ServiceMore.

(** ** Properties of the start-up *)














Lemma init_cases (w : World) (map_path : string) :
  (isfile w map_path = false /\
   __init__ w map_path
   = (["loading map path: " +:+ map_path], Raise (OSError map_path))) \/
  (isfile w map_path = true /\
   exists e, load_building w map_path = Raise e /\
     __init__ w map_path = (["loading map path: " +:+ map_path], Raise e)) \/
  (isfile w map_path = true /\
   exists b e, load_building w map_path = Ok b /\
     building_map_msg (process_env w) (dirname map_path) b = Raise e /\
     __init__ w map_path = (["loading map path: " +:+ map_path], Raise e)) \/
  (isfile w map_path = true /\
   exists b msg n, load_building w map_path = Ok b /\
     building_map_msg (process_env w) (dirname map_path) b = Ok msg /\
     snd (__init__ w map_path) = Ok n /\
     logged (server n) = fst (__init__ w map_path) /\
     length (logged (server n)) = 3%nat /\
     map_msg (server n) = msg /\
     map_dir (server n) = dirname map_path /\
     building n = b /\
     sent (building_map_pub n) = [msg] /\
     topic (building_map_pub n) = "map" /\
     depth (qos_profile (building_map_pub n)) = 1).
Proof.
  unfold __init__.
  destruct (isfile w map_path) eqn:Hf; simpl; [right|left; auto].
  destruct (load_building w map_path) as [b|e] eqn:Hl; [right|left; eauto].
  destruct (building_map_msg (process_env w) (dirname map_path) b)
    as [msg|e] eqn:Hb; [right|left; eauto 6].
  split; [reflexivity|]. exists b, msg. eexists.
  repeat split; first [assumption | reflexivity].
Qed.

(** X16: the node is constructed exactly when the map path is a file,
    the map loads and the building is translated; otherwise the
    constructor raises after its first log line only, and for a path
    that is not a file it raises without reading the map. *)
Theorem init_succeeds_iff (w : World) (map_path : string) :
  ((exists n, snd (__init__ w map_path) = Ok n) <->
   isfile w map_path = true /\
   exists b msg,
     load_building w map_path = Ok b /\
     building_map_msg (process_env w) (dirname map_path) b = Ok msg) /\
  (forall e, snd (__init__ w map_path) = Raise e ->
     fst (__init__ w map_path) = ["loading map path: " +:+ map_path]) /\
  (isfile w map_path = false ->
   snd (__init__ w map_path) = Raise (OSError map_path)).
Proof.
  destruct (init_cases w map_path)
    as [(Hf & E)|[(Hf & e & Hl & E)|[(Hf & b & e & Hl & Hb & E)
        |(Hf & b & msg & n & Hl & Hb & E & _)]]];
    try rewrite E; simpl.
  - split; [split|split].
    + intros (n & H). discriminate.
    + intros (H & _). congruence.
    + reflexivity.
    + reflexivity.
  - split; [split|split].
    + intros (n & H). discriminate.
    + intros (_ & b & msg & H & _). congruence.
    + reflexivity.
    + congruence.
  - split; [split|split].
    + intros (n & H). discriminate.
    + intros (_ & b' & msg & H & H'). congruence.
    + reflexivity.
    + congruence.
  - split; [split|split].
    + intros _. eauto.
    + eauto.
    + intros e' H. congruence.
    + congruence.
Qed.

(** X17: a constructed node has published its message exactly once, on
    the topic [map] with a queue of depth 1; that message is the
    translation of the loaded building with the directory of the map
    path as [map_dir], and it is the message the service will return. *)
Theorem init_publishes_the_built_map_once (w : World) (map_path : string)
    (n : Node) :
  snd (__init__ w map_path) = Ok n ->
  sent (building_map_pub n) = [map_msg (server n)] /\
  topic (building_map_pub n) = "map" /\
  depth (qos_profile (building_map_pub n)) = 1 /\
  load_building w map_path = Ok (building n) /\
  map_dir (server n) = dirname map_path /\
  building_map_msg (process_env w) (map_dir (server n)) (building n)
    = Ok (map_msg (server n)) /\
  length (logged (server n)) = 3%nat.
Proof.
  intros H.
  destruct (init_cases w map_path)
    as [(Hf & E)|[(Hf & e & Hl & E)|[(Hf & b & e & Hl & Hb & E)
        |(Hf & b & msg & n' & Hl & Hb & E & _ & Hlen & Hm & Hd & Hbd & Hs & Ht & Hq)]]];
    try (rewrite E in H; discriminate).
  assert (n' = n) as -> by congruence.
  rewrite Hm, Hd, Hbd. repeat split; assumption.
Qed.

(** X18: whatever calls the service receives after the construction,
    every response carries the one message that was published. *)
Theorem fetched_map_is_the_published_map (Request : Type) (w : World)
    (map_path : string) (n : Node) (calls : list (Request * Response)) :
  snd (__init__ w map_path) = Ok n ->
  forall r, In r (snd (serve (server n) calls)) ->
    sent (building_map_pub n) = [building_map r].
Proof.
  intros H r Hr.
  destruct (init_cases w map_path)
    as [(Hf & E)|[(Hf & e & Hl & E)|[(Hf & b & e & Hl & Hb & E)
        |(Hf & b & msg & n' & Hl & Hb & E & _ & _ & Hm & _ & _ & Hs & _)]]];
    try (rewrite E in H; discriminate).
  assert (n' = n) as -> by congruence.
  destruct (serve_spec Request (server n) calls) as (_ & Hresp).
  rewrite Hresp in Hr. apply in_map_iff in Hr as (c & <- & _).
  simpl. rewrite Hs, Hm. reflexivity.
Qed.

(** X19: [main] takes the map path from the first command-line argument
    when there is one, ignoring further arguments and [RMF_MAP_PATH];
    it does not fall back on [RMF_MAP_PATH] when that argument is not a
    file. Without an argument it takes [RMF_MAP_PATH], and without
    either it exits with status 1 before anything is read. *)
Theorem main_map_path_resolution (w : World) (environ : gmap string string) :
  (forall argv0 map_path rest,
     main w (argv0 :: map_path :: rest) environ = construct w map_path /\
     (isfile w map_path = false ->
      main w (argv0 :: map_path :: rest) environ
      = Uncaught (OSError map_path) ["loading map path: " +:+ map_path])) /\
  (forall argv, (length argv <= 1)%nat ->
     (forall map_path, environ !! "RMF_MAP_PATH" = Some map_path ->
        main w argv environ = construct w map_path) /\
     (environ !! "RMF_MAP_PATH" = None ->
      forall w',
        main w' argv environ
        = SysExit 1
            ["map path must be provided in command line or RMF_MAP_PATH env"])).
Proof.
  split.
  - intros argv0 map_path rest.
    assert (main w (argv0 :: map_path :: rest) environ = construct w map_path)
      as Hm.
    { unfold main.
      destruct (Z.ltb_spec 1 (Z.of_nat (length (argv0 :: map_path :: rest))))
        as [_|Hl]; [|simpl in Hl; lia].
      rewrite (py_getitem_nonneg _ 1 map_path); [reflexivity|lia|reflexivity]. }
    split; [exact Hm|]. intros Hf. rewrite Hm. unfold construct.
    destruct (init_cases w map_path) as [(_ & ->)|[(Hf' & _)|[(Hf' & _)|(Hf' & _)]]];
      [reflexivity|congruence..].
  - intros argv Hlen.
    assert (forall w0, main w0 argv environ
            = match environ !! "RMF_MAP_PATH" with
              | Some map_path => construct w0 map_path
              | None => SysExit 1
                  ["map path must be provided in command line or RMF_MAP_PATH env"]
              end) as Hm.
    { intros w0. unfold main.
      destruct (Z.ltb_spec 1 (Z.of_nat (length argv))); [lia|reflexivity]. }
    split.
    + intros map_path He. rewrite Hm, He. reflexivity.
    + intros He w'. rewrite Hm, He. reflexivity.
Qed.

(** ** What the message keeps of the model *)

Lemma lift_msg_injective (a b : Model.Lift.t) :
  lift_msg a = lift_msg b -> a = b.
Proof.
  destruct a, b. unfold lift_msg. simpl. intros H.
  injection H as -> -> -> -> -> -> ->. reflexivity.
Qed.

Lemma graph_edge_injective (a b : Z * Z * Model.NavGraph.lane_params) :
  graph_edge a = graph_edge b -> a = b.
Proof.
  destruct a as [[a1 a2] [ab]], b as [[b1 b2] [bb]].
  unfold graph_edge. simpl. intros H. injection H as -> -> H.
  destruct ab, bb; try reflexivity; discriminate H.
Qed.

Lemma map_injective {A B} (f : A -> B) (xs ys : list A) :
  (forall a b, f a = f b -> a = b) -> map f xs = map f ys -> xs = ys.
Proof.
  intros Hf. revert ys.
  induction xs as [|x xs IH]; intros [|y ys] H; simpl in H;
    try discriminate; [reflexivity|].
  injection H as Hx Hxs. rewrite (Hf _ _ Hx), (IH _ Hxs). reflexivity.
Qed.

(** X20: the lifts of a building can be read back from its message: two
    buildings, in any directories and environments, that give the same
    message have the same lifts in the same order. *)
Theorem message_determines_lifts env1 env2 map_dir1 map_dir2 b1 b2 msg :
  building_map_msg env1 map_dir1 b1 = Ok msg ->
  building_map_msg env2 map_dir2 b2 = Ok msg ->
  map snd (Model.Building.lifts b1) = map snd (Model.Building.lifts b2) /\
  Model.Building.name b1 = Model.Building.name b2.
Proof.
  intros H1 H2.
  apply building_map_msg_inv in H1 as (_ & Hl1 & Hn1).
  apply building_map_msg_inv in H2 as (_ & Hl2 & Hn2).
  split; [|congruence].
  apply (map_injective lift_msg); [apply lift_msg_injective|].
  rewrite !map_map. congruence.
Qed.

Lemma graph_node_injective
    (a b : float * float * Model.NavGraph.vertex_params) :
  graph_node a = graph_node b -> a = b.
Proof.
  destruct a as [[ax ay] [an]], b as [[bx by_] [bn]].
  unfold graph_node. simpl. intros H. injection H as -> -> ->. reflexivity.
Qed.

(** X21: a navigation graph can be read back from its message: graphs of
    the generator that give the same graph message have the same
    vertices and the same lanes, with the same directions. *)
Theorem graph_message_determines_graph (i j : Z) (g1 g2 : Model.NavGraph.t) :
  graph_of i g1 = graph_of j g2 -> g1 = g2.
Proof.
  destruct g1 as [vs1 ls1], g2 as [vs2 ls2]. unfold graph_of. simpl.
  intros H. injection H as _ Hv Hl.
  apply (map_injective _ _ _ graph_node_injective) in Hv.
  apply (map_injective _ _ _ graph_edge_injective) in Hl.
  congruence.
Qed.

(** ** The further properties on the example building *)

Lemma unreadable_image_fails_witness :
  Model.Level.drawing_name DemoWorld.L7 = Some "missing.png" /\
  read_file Demo.env (path_join "/maps" "missing.png")
    = Raise (OSError "/maps/missing.png") /\
  level_msg Demo.env "/maps" DemoWorld.L7
    = Raise (OSError "/maps/missing.png") /\
  raises (building_map_msg Demo.env "/maps" DemoWorld.building_missing_image).
Proof.
  split; [reflexivity|]. split; [reflexivity|].
  destruct (unreadable_image_fails Demo.env "/maps" DemoWorld.L7
              "missing.png" (OSError "/maps/missing.png"))
    as (H1 & H2); [reflexivity|discriminate|reflexivity|].
  split; [exact H1|].
  apply (H2 DemoWorld.building_missing_image "L7").
  right; left; reflexivity.
Defined.

Lemma absolute_image_ignores_map_dir_witness :
  Model.Level.drawing_name DemoWorld.L8 = Some "/maps/plan" /\
  path_join "/elsewhere" "/maps/plan" = "/maps/plan" /\
  level_msg Demo.env "/elsewhere" DemoWorld.L8
    = level_msg Demo.env "/maps" DemoWorld.L8.
Proof.
  split; [reflexivity|].
  apply (absolute_image_ignores_map_dir Demo.env "/elsewhere" "/maps"
           DemoWorld.L8 "/maps/plan"); reflexivity.
Defined.

Lemma no_floor_plan_no_file_read_witness :
  truthy_name (Model.Level.drawing_name Demo.L1) = None /\
  level_msg (mkEnv (fun path => Raise (OSError path))
                   (int_to_float Demo.env) (str_to_float Demo.env))
            "/elsewhere" Demo.L1
  = level_msg Demo.env "/maps" Demo.L1.
Proof.
  split; [reflexivity|].
  apply (no_floor_plan_no_file_read Demo.env "/maps" Demo.L1 eq_refl).
Defined.

Lemma door_msg_first_error_witness :
  door_msg Demo.env Demo.L5 Demo.door_no_type = Raise (KeyError "type") /\
  Model.Door.params Demo.door_no_type !! "name" <> None /\
  Model.Door.params Demo.door_no_type !! "type" = None.
Proof.
  split; [reflexivity|].
  pose proof (door_msg_first_error Demo.env Demo.L5 Demo.door_no_type
                (KeyError "type") eq_refl) as H.
  cbv zeta in H.
  destruct H as [(_ & H)|(Hn & H)]; [discriminate H|].
  split; [exact Hn|].
  destruct H as [(_ & H)|(_ & H)]; [discriminate H|].
  destruct H as [(_ & H)|(_ & H)]; [discriminate H|].
  destruct H as [(_ & H)|(p & Hp & H)]; [discriminate H|].
  vm_compute in Hp. injection Hp as <-.
  destruct H as [H|(_ & H)]; [vm_compute in H; discriminate H|].
  destruct H as [(_ & H)|(_ & H & _)]; [discriminate H|exact H].
Defined.

Lemma door_coordinates_from_vertices_witness :
  exists d v1 v2,
    door_msg Demo.env Demo.L1 Demo.door_hinged = Ok d /\
    Model.Level.vertices Demo.L1 !! 0%nat = Some v1 /\
    Model.Level.vertices Demo.L1 !! 1%nat = Some v2 /\
    Msg.Door.v1_x d = Model.Vertex.x v1 /\
    Msg.Door.v2_x d = Model.Vertex.x v2.
Proof.
  destruct (door_msg Demo.env Demo.L1 Demo.door_hinged) as [d|e] eqn:E;
    [|vm_compute in E; discriminate E].
  destruct (door_coordinates_from_vertices Demo.env Demo.L1
              Demo.door_hinged d E)
    as (v1 & v2 & _ & _ & Hx1 & _ & Hx2 & _ & H1 & H2).
  exists d, v1, v2. split; [reflexivity|].
  split; [apply H1; simpl; lia|]. split; [apply H2; simpl; lia|].
  split; assumption.
Defined.

Lemma nav_graphs_shape_witness :
  level_msg Demo.env "/maps" DemoWorld.L9 = Ok DemoWorld.L9_msg /\
  map Msg.Graph.name (Msg.Level.nav_graphs DemoWorld.L9_msg) = ["2"; "7"] /\
  (length (Msg.Level.nav_graphs DemoWorld.L9_msg) <= 9)%nat /\
  NoDup (map Msg.Graph.name (Msg.Level.nav_graphs DemoWorld.L9_msg)).
Proof.
  split; [reflexivity|].
  destruct (nav_graphs_shape Demo.env "/maps" DemoWorld.L9 DemoWorld.L9_msg
              eq_refl) as (_ & Hlen & Hnd & _).
  split; [reflexivity|]. split; assumption.
Defined.



Lemma building_fails_at_first_failing_level_witness :
  Model.Building.levels DemoWorld.building_missing_image
    = [("L1", Demo.L1); ("L7", DemoWorld.L7); ("L4", Demo.L4)] /\
  level_msg Demo.env "/maps" Demo.L1 = Ok Demo.L1_msg /\
  level_msg Demo.env "/maps" DemoWorld.L7
    = Raise (OSError "/maps/missing.png") /\
  building_map_msg Demo.env "/maps" DemoWorld.building_missing_image
    = Raise (OSError "/maps/missing.png").
Proof.
  split; [reflexivity|]. split; [reflexivity|]. split; [reflexivity|].
  apply (proj2 (building_fails_at_first_failing_level Demo.env "/maps"
                  DemoWorld.building_missing_image
                  (OSError "/maps/missing.png"))).
  exists [("L1", Demo.L1)], "L7", DemoWorld.L7, [("L4", Demo.L4)].
  split; [reflexivity|]. split; [|reflexivity].
  constructor; [|constructor]. exists Demo.L1_msg. reflexivity.
Defined.

Lemma init_succeeds_iff_witness :
  (exists n, snd (__init__ DemoWorld.world DemoWorld.map_path) = Ok n) /\
  isfile DemoWorld.world "/nope" = false /\
  snd (__init__ DemoWorld.world "/nope") = Raise (OSError "/nope") /\
  fst (__init__ DemoWorld.world "/nope") = ["loading map path: /nope"].
Proof.
  split; [|split; [reflexivity|]].
  - apply (proj2 (proj1 (init_succeeds_iff DemoWorld.world DemoWorld.map_path))).
    split; [reflexivity|].
    exists Demo.building, Demo.building_msg. split; reflexivity.
  - destruct (init_succeeds_iff DemoWorld.world "/nope") as (_ & Hlog & Hraise).
    split; [apply Hraise; reflexivity|].
    apply (Hlog (OSError "/nope")), Hraise. reflexivity.
Defined.

Lemma init_publishes_the_built_map_once_witness :
  snd (__init__ DemoWorld.world DemoWorld.map_path) = Ok DemoWorld.node /\
  sent (building_map_pub DemoWorld.node) = [map_msg (server DemoWorld.node)] /\
  map_msg (server DemoWorld.node) = Demo.building_msg /\
  map_dir (server DemoWorld.node) = "/maps" /\
  building_map_msg Demo.env "/maps" Demo.building
    = Ok (map_msg (server DemoWorld.node)).
Proof.
  assert (snd (__init__ DemoWorld.world DemoWorld.map_path)
          = Ok DemoWorld.node) as E by (vm_compute; reflexivity).
  split; [exact E|].
  destruct (init_publishes_the_built_map_once DemoWorld.world
              DemoWorld.map_path DemoWorld.node E)
    as (Hs & _ & _ & _ & _ & Hb & _).
  split; [exact Hs|]. split; [reflexivity|]. split; [reflexivity|exact Hb].
Defined.

Lemma fetched_map_is_the_published_map_witness :
  snd (__init__ DemoWorld.world DemoWorld.map_path) = Ok DemoWorld.node /\
  forall r, In r (snd (serve (server DemoWorld.node) Demo.two_calls)) ->
    sent (building_map_pub DemoWorld.node) = [building_map r].
Proof.
  assert (snd (__init__ DemoWorld.world DemoWorld.map_path)
          = Ok DemoWorld.node) as E by (vm_compute; reflexivity).
  split; [exact E|].
  apply (fetched_map_is_the_published_map unit DemoWorld.world
           DemoWorld.map_path DemoWorld.node Demo.two_calls E).
Defined.

Lemma main_map_path_resolution_witness :
  main DemoWorld.world ["prog"; "/nope"; "more"] DemoWorld.environ
    = Uncaught (OSError "/nope") ["loading map path: /nope"] /\
  main DemoWorld.world ["prog"] DemoWorld.environ
    = construct DemoWorld.world DemoWorld.map_path /\
  main DemoWorld.world ["prog"] ∅
    = SysExit 1
        ["map path must be provided in command line or RMF_MAP_PATH env"].
Proof.
  destruct (main_map_path_resolution DemoWorld.world DemoWorld.environ)
    as (Harg & Henv).
  destruct (main_map_path_resolution DemoWorld.world ∅) as (_ & Hnone).
  split; [apply (proj2 (Harg "prog" "/nope" ["more"])); reflexivity|].
  split.
  - apply (proj1 (Henv ["prog"] ltac:(simpl; lia))). reflexivity.
  - apply (proj2 (Hnone ["prog"] ltac:(simpl; lia))). reflexivity.
Defined.

Lemma message_determines_lifts_witness :
  building_map_msg Demo.env "/maps" Demo.building = Ok Demo.building_msg /\
  building_map_msg Demo.env "/maps"
    (Model.Building.mk "demo" (Model.Building.levels Demo.building)
       [("a", Demo.lift1); ("b", Demo.lift2)]) = Ok Demo.building_msg /\
  map snd (Model.Building.lifts Demo.building) = [Demo.lift1; Demo.lift2].
Proof.
  split; [reflexivity|]. split; [reflexivity|].
  apply (proj1 (message_determines_lifts Demo.env Demo.env "/maps" "/maps"
                  Demo.building
                  (Model.Building.mk "demo"
                     (Model.Building.levels Demo.building)
                     [("a", Demo.lift1); ("b", Demo.lift2)])
                  Demo.building_msg eq_refl eq_refl)).
Defined.

Lemma graph_message_determines_graph_witness :
  graph_of 0 (Demo.one_lane 0 false) = graph_of 0 (DemoWorld.same_lane) /\
  Demo.one_lane 0 false = DemoWorld.same_lane.
Proof.
  split; [reflexivity|].
  apply (graph_message_determines_graph 0 0 (Demo.one_lane 0 false)
           DemoWorld.same_lane).
  reflexivity.
Defined.
